(** * ngx-scrollbar: the [NgScrollbar] component

    A shallow embedding of [projects/ngx-scrollbar/src/scrollbar/ng-scrollbar.ts]
    and the properties of its visibility getters and of its enable / disable /
    update life cycle.

    The component is a TypeScript class whose methods mutate [this] and call
    into collaborators (the change detector, a [MutationObserver], rxjs
    streams).  Here the instance fields and the observable state of the
    collaborators form one record, each method is a function on that record,
    and a method that may raise a JavaScript [TypeError] returns a [Result].
    Events (calls from the framework, stream and observer callbacks, new
    layouts of the DOM) are total steps on that record: a fault leaves the
    component in place.  Wall-clock time is a logical time stamp in
    milliseconds handed to every operation that reaches a timer or a log. *)

From stdpp Require Import base numbers list strings option.
From Stdlib Require Import ZArith Lia.

Local Open Scope Z_scope.

(** ** Exceptions *)

Inductive Error :=
| TypeError (what : string).

Inductive Result (A : Type) :=
| Ok (a : A)
| Throw (e : Error).

Arguments Ok {A} a.
Arguments Throw {A} e.

#[global] Instance Result_ret : MRet Result := fun A a => Ok a.
#[global] Instance Result_bind : MBind Result := fun A B f m =>
  match m with
  | Ok a => f a
  | Throw e => Throw e
  end.

Definition isOk {A} (r : Result A) : bool :=
  match r with Ok _ => true | Throw _ => false end.

(** ** The DOM and the injected collaborators *)

(** A DOM node as a getter finds it when it reads it: its identity and its
    four layout metrics at that moment.  The node itself lives in the
    viewport child of the component state, where [onLayout] below gives it
    new metrics when the browser lays the content out anew. *)
Record HTMLElement := {
  elementId : nat;
  scrollWidth : Z;
  scrollHeight : Z;
  clientWidth : Z;
  clientHeight : Z
}.

(** [ElementRef.nativeElement] is null where the platform has no DOM node. *)
Record ElementRef := {
  nativeElement : option HTMLElement
}.

(** [CdkScrollable] (and [CdkVirtualScrollViewport], which extends it). *)
Record CdkScrollable := {
  getElementRef : ElementRef
}.

(** Modelled from the spec: [NgScrollbarView] is declared in
    [./ng-scrollbar-view], which is not among the sources; the spec (section 9)
    calls it the custom variant of the active viewport.  Only the member the
    component dereferences in [view] is kept. *)
Record NgScrollbarView := {
  virtualScrollViewport : CdkScrollable
}.

Inductive Shown := hover | always | native.

#[global] Instance Shown_eq_dec : EqDecision Shown.
Proof. solve_decision. Defined.

Inductive Platform := PlatformBrowser | PlatformServer.

Definition isPlatformBrowser (p : Platform) : bool :=
  match p with PlatformBrowser => true | PlatformServer => false end.

(** [Breakpoints.*] of [@angular/cdk/layout]: media queries. *)
Inductive Breakpoint :=
| HandsetLandscape
| HandsetPortrait
| MediaQuery (q : string).

(** The options handed to [MutationObserver.observe]. *)
Record MutationObserverInit := {
  subtree : bool;
  childList : bool;
  characterData : bool
}.

(** A [MutationObserver] object on the heap.  Its callback is always
    [() => this.update()]; [observing] is the node it watches, as [view]
    returned it when [observe] was called, [None] before [observe] and after
    [disconnect]. *)
Record MutationObserver := {
  observing : option (HTMLElement * MutationObserverInit)
}.

(** State of one [throttleTime(200)] operator of rxjs in its default
    configuration (leading edge, no trailing edge): [None] when open,
    [Some u] while the timer armed by the last forwarded value runs, until
    time [u]. *)
Definition Throttle := option Z.

(** ** The component *)

Record NgScrollbar := {
  (* inputs *)
  trackX : bool;
  trackY : bool;
  shown : Shown;
  autoUpdate : bool;
  scrollToDuration : Z;
  disableOnBreakpoints : option (list Breakpoint);
  (* state *)
  disabled : bool;
  (* view and content children *)
  scrollViewport : option CdkScrollable;
  customViewPort : option NgScrollbarView;
  (* private members *)
  _observer : option nat;
  _platform : Platform;
  (* the heap of MutationObserver objects; [_observer] points into it *)
  observers : list MutationObserver;
  (* values pushed into the [_updateObserver] subject, by time *)
  updateEmissions : list Z;
  (* calls of [_changeDetectorRef.markForCheck()], by time *)
  markForCheckLog : list Z;
  (* whether [_unsubscribe$] has completed, and the live subscriptions it ends *)
  _unsubscribeStopped : bool;
  breakpointSubs : nat;
  updateSubs : list Throttle;
  resizeSubs : list Throttle;
  (* callbacks queued by [Promise.resolve().then] in [ngAfterViewInit] *)
  pendingInit : nat
}.

(** Field updates. *)
Definition set_disabled (b : bool) (s : NgScrollbar) : NgScrollbar :=
  {| trackX := trackX s; trackY := trackY s; shown := shown s;
     autoUpdate := autoUpdate s; scrollToDuration := scrollToDuration s;
     disableOnBreakpoints := disableOnBreakpoints s;
     disabled := b;
     scrollViewport := scrollViewport s; customViewPort := customViewPort s;
     _observer := _observer s; _platform := _platform s;
     observers := observers s; updateEmissions := updateEmissions s;
     markForCheckLog := markForCheckLog s;
     _unsubscribeStopped := _unsubscribeStopped s;
     breakpointSubs := breakpointSubs s; updateSubs := updateSubs s;
     resizeSubs := resizeSubs s; pendingInit := pendingInit s |}.

Definition set_observer (o : option nat) (os : list MutationObserver)
    (s : NgScrollbar) : NgScrollbar :=
  {| trackX := trackX s; trackY := trackY s; shown := shown s;
     autoUpdate := autoUpdate s; scrollToDuration := scrollToDuration s;
     disableOnBreakpoints := disableOnBreakpoints s;
     disabled := disabled s;
     scrollViewport := scrollViewport s; customViewPort := customViewPort s;
     _observer := o; _platform := _platform s;
     observers := os; updateEmissions := updateEmissions s;
     markForCheckLog := markForCheckLog s;
     _unsubscribeStopped := _unsubscribeStopped s;
     breakpointSubs := breakpointSubs s; updateSubs := updateSubs s;
     resizeSubs := resizeSubs s; pendingInit := pendingInit s |}.

Definition set_streams (em marks : list Z) (us : list Throttle)
    (s : NgScrollbar) : NgScrollbar :=
  {| trackX := trackX s; trackY := trackY s; shown := shown s;
     autoUpdate := autoUpdate s; scrollToDuration := scrollToDuration s;
     disableOnBreakpoints := disableOnBreakpoints s;
     disabled := disabled s;
     scrollViewport := scrollViewport s; customViewPort := customViewPort s;
     _observer := _observer s; _platform := _platform s;
     observers := observers s; updateEmissions := em;
     markForCheckLog := marks;
     _unsubscribeStopped := _unsubscribeStopped s;
     breakpointSubs := breakpointSubs s; updateSubs := us;
     resizeSubs := resizeSubs s; pendingInit := pendingInit s |}.

Definition set_subs (stopped : bool) (bp : nat) (us rs : list Throttle)
    (pend : nat) (s : NgScrollbar) : NgScrollbar :=
  {| trackX := trackX s; trackY := trackY s; shown := shown s;
     autoUpdate := autoUpdate s; scrollToDuration := scrollToDuration s;
     disableOnBreakpoints := disableOnBreakpoints s;
     disabled := disabled s;
     scrollViewport := scrollViewport s; customViewPort := customViewPort s;
     _observer := _observer s; _platform := _platform s;
     observers := observers s; updateEmissions := updateEmissions s;
     markForCheckLog := markForCheckLog s;
     _unsubscribeStopped := stopped;
     breakpointSubs := bp; updateSubs := us;
     resizeSubs := rs; pendingInit := pend |}.

(** The field initialisers of the class: what [new NgScrollbar(cdr, bpo,
    platform)] holds before Angular assigns inputs and resolves the queries. *)
Definition new_NgScrollbar (platform : Platform) : NgScrollbar :=
  {| trackX := false; trackY := true; shown := native;
     autoUpdate := true; scrollToDuration := 300;
     disableOnBreakpoints := Some [HandsetLandscape; HandsetPortrait];
     disabled := false;
     scrollViewport := None; customViewPort := None;
     _observer := None; _platform := platform;
     observers := []; updateEmissions := [];
     markForCheckLog := [];
     _unsubscribeStopped := false;
     breakpointSubs := 0%nat; updateSubs := [];
     resizeSubs := []; pendingInit := 0%nat |}.

(** Angular resolving the static [@ViewChild(CdkScrollable)] query. *)
Definition with_scrollViewport (v : CdkScrollable) (s : NgScrollbar) : NgScrollbar :=
  {| trackX := trackX s; trackY := trackY s; shown := shown s;
     autoUpdate := autoUpdate s; scrollToDuration := scrollToDuration s;
     disableOnBreakpoints := disableOnBreakpoints s;
     disabled := disabled s;
     scrollViewport := Some v; customViewPort := customViewPort s;
     _observer := _observer s; _platform := _platform s;
     observers := observers s; updateEmissions := updateEmissions s;
     markForCheckLog := markForCheckLog s;
     _unsubscribeStopped := _unsubscribeStopped s;
     breakpointSubs := breakpointSubs s; updateSubs := updateSubs s;
     resizeSubs := resizeSubs s; pendingInit := pendingInit s |}.

(** ** Getters *)

(** [get view()]: dereferences [scrollViewport] unguarded, so an unresolved
    query raises; a resolved one yields its (possibly null) native element. *)
Definition view (s : NgScrollbar) : Result (option HTMLElement) :=
  match customViewPort s with
  | Some cv => Ok (nativeElement (getElementRef (virtualScrollViewport cv)))
  | None =>
      match scrollViewport s with
      | Some sv => Ok (nativeElement (getElementRef sv))
      | None => Throw (TypeError "Cannot read property 'getElementRef' of undefined")
      end
  end.

Definition NATIVE_SCROLLBAR_SIZE : string := "18px".

Record Size := { width : string; height : string }.

Definition hideNativeScrollbars (s : NgScrollbar) : Size :=
  let size := if disabled s then "100%"
              else "calc(100% + " +:+ NATIVE_SCROLLBAR_SIZE +:+ ")" in
  {| width := if trackY s then size else "100%";
     height := if trackX s then size else "100%" |}.

(** [this.shown === 'always' || this.view.scrollHeight > this.view.clientHeight];
    [||] does not evaluate [this.view] when the left operand holds. *)
Definition showScrollbarY (s : NgScrollbar) : Result bool :=
  if decide (shown s = always) then Ok true
  else
    v ← view s;
    match v with
    | Some el => Ok (bool_decide (scrollHeight el > clientHeight el))
    | None => Throw (TypeError "Cannot read property 'scrollHeight' of null")
    end.

Definition showScrollbarX (s : NgScrollbar) : Result bool :=
  if decide (shown s = always) then Ok true
  else
    v ← view s;
    match v with
    | Some el => Ok (bool_decide (scrollWidth el > clientWidth el))
    | None => Throw (TypeError "Cannot read property 'scrollWidth' of null")
    end.

(** Angular assigning the plain [@Input] properties and the
    [@ContentChild(NgScrollbarView)] query. *)
Definition with_inputs (tx ty : bool) (sh : Shown) (au : bool)
    (bps : option (list Breakpoint)) (s : NgScrollbar) : NgScrollbar :=
  {| trackX := tx; trackY := ty; shown := sh;
     autoUpdate := au; scrollToDuration := scrollToDuration s;
     disableOnBreakpoints := bps;
     disabled := disabled s;
     scrollViewport := scrollViewport s; customViewPort := customViewPort s;
     _observer := _observer s; _platform := _platform s;
     observers := observers s; updateEmissions := updateEmissions s;
     markForCheckLog := markForCheckLog s;
     _unsubscribeStopped := _unsubscribeStopped s;
     breakpointSubs := breakpointSubs s; updateSubs := updateSubs s;
     resizeSubs := resizeSubs s; pendingInit := pendingInit s |}.

Definition with_customViewPort (cv : NgScrollbarView) (s : NgScrollbar) : NgScrollbar :=
  {| trackX := trackX s; trackY := trackY s; shown := shown s;
     autoUpdate := autoUpdate s; scrollToDuration := scrollToDuration s;
     disableOnBreakpoints := disableOnBreakpoints s;
     disabled := disabled s;
     scrollViewport := scrollViewport s; customViewPort := Some cv;
     _observer := _observer s; _platform := _platform s;
     observers := observers s; updateEmissions := updateEmissions s;
     markForCheckLog := markForCheckLog s;
     _unsubscribeStopped := _unsubscribeStopped s;
     breakpointSubs := breakpointSubs s; updateSubs := updateSubs s;
     resizeSubs := resizeSubs s; pendingInit := pendingInit s |}.

(** The DOM changing under the component: the children keep their identity
    and hold nodes with new metrics. *)
Definition set_children (sv : option CdkScrollable) (cv : option NgScrollbarView)
    (s : NgScrollbar) : NgScrollbar :=
  {| trackX := trackX s; trackY := trackY s; shown := shown s;
     autoUpdate := autoUpdate s; scrollToDuration := scrollToDuration s;
     disableOnBreakpoints := disableOnBreakpoints s;
     disabled := disabled s;
     scrollViewport := sv; customViewPort := cv;
     _observer := _observer s; _platform := _platform s;
     observers := observers s; updateEmissions := updateEmissions s;
     markForCheckLog := markForCheckLog s;
     _unsubscribeStopped := _unsubscribeStopped s;
     breakpointSubs := breakpointSubs s; updateSubs := updateSubs s;
     resizeSubs := resizeSubs s; pendingInit := pendingInit s |}.

(** ** Streams *)

(** The window of both [throttleTime(200)] operators. *)
Definition THROTTLE_WINDOW : Z := 200.

(** A throttle lets a value through when no timer runs; a timer due at [u]
    has fired once the clock reads [u]. *)
Definition throttleOpen (now : Z) (th : Throttle) : bool :=
  match th with
  | None => true
  | Some u => bool_decide (u <= now)
  end.

(** [throttleTime(200)] receiving a value at [now]: forwarded at once and the
    timer armed when open, dropped otherwise.  The flag tells whether the
    value went through. *)
Definition throttleTime (now : Z) (th : Throttle) : Throttle * bool :=
  if throttleOpen now th then (Some (now + THROTTLE_WINDOW), true)
  else (th, false).

(** [this._changeDetectorRef.markForCheck()] *)
Definition markForCheck (now : Z) (s : NgScrollbar) : NgScrollbar :=
  set_streams (updateEmissions s) (markForCheckLog s ++ [now]) (updateSubs s) s.

(** [this._updateObserver.next()]: the subject hands the pulse, synchronously,
    to each subscription of
    [updateObserver.pipe(throttleTime(200), tap(() => markForCheck()), takeUntil(_unsubscribe$))]. *)
Definition updateObserver_next (now : Z) (s : NgScrollbar) : NgScrollbar :=
  let res := map (throttleTime now) (updateSubs s) in
  set_streams (updateEmissions s ++ [now])
              (markForCheckLog s ++ map (fun _ => now) (filter (fun r => snd r = true) res))
              (map fst res) s.

(** ** Methods *)

Definition update (now : Z) (s : NgScrollbar) : NgScrollbar :=
  if disabled s then s else updateObserver_next now s.

(** [observer.disconnect()] on the heap object at [i]. *)
Definition disconnect (i : nat) (s : NgScrollbar) : NgScrollbar :=
  set_observer (_observer s) (<[i := {| observing := None |}]> (observers s)) s.

Definition observerInit : MutationObserverInit :=
  {| subtree := true; childList := true; characterData := true |}.

Definition enable (now : Z) (s : NgScrollbar) : Result NgScrollbar :=
  v ← view s;
  match v with
  | None => Ok s
  | Some _ =>
      let s1 := markForCheck now (set_disabled false s) in
      if negb (bool_decide (is_Some (customViewPort s1))) && autoUpdate s1
         && isPlatformBrowser (_platform s1)
      then
        (* this._observer = new MutationObserver(() => this.update()) *)
        let i := length (observers s1) in
        let s2 := set_observer (Some i) (observers s1 ++ [{| observing := None |}]) s1 in
        (* this._observer.observe(this.view, {...}) *)
        t ← view s2;
        match t with
        | Some el =>
            Ok (set_observer (_observer s2)
                  (<[i := {| observing := Some (el, observerInit) |}]> (observers s2)) s2)
        | None => Throw (TypeError "Failed to execute 'observe' on 'MutationObserver'")
        end
      else Ok s1
  end.

Definition disable (s : NgScrollbar) : NgScrollbar :=
  let s1 := set_disabled true s in
  match _observer s1 with
  | Some i => disconnect i s1
  | None => s1
  end.

(** [@Input('disabled') set setDisabled(disable)] *)
Definition setDisabled (now : Z) (disable_ : bool) (s : NgScrollbar) : Result NgScrollbar :=
  if disable_ then Ok (disable s) else enable now s.

(** [ngAfterViewInit()] only queues its body as a microtask. *)
Definition ngAfterViewInit (s : NgScrollbar) : NgScrollbar :=
  set_subs (_unsubscribeStopped s) (breakpointSubs s) (updateSubs s) (resizeSubs s)
           (S (pendingInit s)) s.

(** The body queued by [ngAfterViewInit].  A [takeUntil] whose notifier has
    already completed never ends its source, so subscribing is the same
    whether or not [_unsubscribe$] is stopped. *)
Definition afterViewInitBody (now : Z) (s : NgScrollbar) : Result NgScrollbar :=
  s1 ← (if negb (disabled s) then
          match disableOnBreakpoints s with
          | Some _ =>
              Ok (set_subs (_unsubscribeStopped s) (S (breakpointSubs s))
                           (updateSubs s) (resizeSubs s) (pendingInit s) s)
          | None => enable now s
          end
        else Ok s);
  let s2 := set_subs (_unsubscribeStopped s1) (breakpointSubs s1)
                     (updateSubs s1 ++ [None]) (resizeSubs s1) (pendingInit s1) s1 in
  if isPlatformBrowser (_platform s2)
  then Ok (set_subs (_unsubscribeStopped s2) (breakpointSubs s2) (updateSubs s2)
                    (resizeSubs s2 ++ [None]) (pendingInit s2) s2)
  else Ok s2.

(** The microtask checkpoint running one queued body. *)
Definition runMicrotask (now : Z) (s : NgScrollbar) : Result NgScrollbar :=
  match pendingInit s with
  | O => Ok s
  | S n =>
      afterViewInitBody now
        (set_subs (_unsubscribeStopped s) (breakpointSubs s) (updateSubs s)
                  (resizeSubs s) n s)
  end.

Definition ngOnDestroy (s : NgScrollbar) : NgScrollbar :=
  (* this._unsubscribe$.next(); this._unsubscribe$.complete() *)
  let s1 := if _unsubscribeStopped s then s
            else set_subs true 0%nat [] [] (pendingInit s) s in
  match _observer s1 with
  | Some i => disconnect i s1
  | None => s1
  end.

(** ** Callbacks driven by the environment *)

(** The state a fault leaves behind.  The methods modelled here fault, if at
    all, in their first evaluation of [this.view], before they assign
    anything (lemma [fault_before_assignment]); the exception goes to the
    caller, or to the host when the caller is rxjs or the microtask queue,
    and the component stays in place and reacts to later events. *)
Definition after (s : NgScrollbar) (r : Result NgScrollbar) : NgScrollbar :=
  match r with
  | Ok s' => s'
  | Throw _ => s
  end.

(** A breakpoint subscription ended by an error notification. *)
Definition closeBreakpointSub (s : NgScrollbar) : NgScrollbar :=
  set_subs (_unsubscribeStopped s) (pred (breakpointSubs s)) (updateSubs s)
           (resizeSubs s) (pendingInit s) s.

(** The breakpoint observer emitting [{matches}] to the [n] subscriptions
    live at that moment: each runs
    [tap(result => result.matches ? this.disable() : this.enable())].  When
    the callback faults, [tap] turns the exception into an error
    notification, which ends that subscription (the error itself is reported
    to the host); the other subscriptions still receive the value. *)
Fixpoint breakpointDeliver (n : nat) (now : Z) (matches : bool)
    (s : NgScrollbar) : NgScrollbar :=
  match n with
  | O => s
  | S k =>
      let s1 := match (if matches then Ok (disable s) else enable now s) with
                | Ok s' => s'
                | Throw _ => closeBreakpointSub s
                end in
      breakpointDeliver k now matches s1
  end.

Definition onBreakpoint (now : Z) (matches : bool) (s : NgScrollbar) : NgScrollbar :=
  breakpointDeliver (breakpointSubs s) now matches s.

(** A window [resize] event: each live subscription runs
    [throttleTime(200), tap(() => this.update())]. *)
Fixpoint resizeDeliver (now : Z) (subs : list Throttle) (s : NgScrollbar)
    : list Throttle * NgScrollbar :=
  match subs with
  | [] => ([], s)
  | th :: rest =>
      let '(th', passed) := throttleTime now th in
      let s1 := if passed then update now s else s in
      let '(rest', s2) := resizeDeliver now rest s1 in
      (th' :: rest', s2)
  end.

Definition onWindowResize (now : Z) (s : NgScrollbar) : NgScrollbar :=
  let '(rs, s1) := resizeDeliver now (resizeSubs s) s in
  set_subs (_unsubscribeStopped s1) (breakpointSubs s1) (updateSubs s1) rs
           (pendingInit s1) s1.

(** The browser delivering mutation records to the heap observer [i]: its
    callback [() => this.update()] runs while the observer is connected. *)
Definition onMutation (now : Z) (i : nat) (s : NgScrollbar) : NgScrollbar :=
  match observers s !! i with
  | Some {| observing := Some _ |} => update now s
  | _ => s
  end.

(** The browser laying the viewport out anew (content added or removed, the
    viewport resized): the node [view] designates keeps its identity and gets
    the new metrics; an unresolved or element-less viewport has nothing to
    lay out. *)
Definition relaid (scrollW scrollH clientW clientH : Z) (el : HTMLElement) : HTMLElement :=
  {| elementId := elementId el; scrollWidth := scrollW; scrollHeight := scrollH;
     clientWidth := clientW; clientHeight := clientH |}.

Definition relaidScrollable (scrollW scrollH clientW clientH : Z)
    (sc : CdkScrollable) : CdkScrollable :=
  {| getElementRef :=
       {| nativeElement :=
            relaid scrollW scrollH clientW clientH
              <$> nativeElement (getElementRef sc) |} |}.

Definition onLayout (scrollW scrollH clientW clientH : Z) (s : NgScrollbar) : NgScrollbar :=
  match customViewPort s with
  | Some cv =>
      set_children (scrollViewport s)
        (Some {| virtualScrollViewport :=
                   relaidScrollable scrollW scrollH clientW clientH
                     (virtualScrollViewport cv) |}) s
  | None =>
      set_children
        (relaidScrollable scrollW scrollH clientW clientH <$> scrollViewport s)
        None s
  end.

(** ** Histories *)

Inductive Event :=
| EvSetDisabled (disable_ : bool)
| EvAfterViewInit
| EvMicrotask
| EvDestroy
| EvUpdate
| EvEnable
| EvDisable
| EvBreakpoint (matches : bool)
| EvResize
| EvMutation (i : nat)
| EvLayout (scrollW scrollH clientW clientH : Z).

(** The queue of start-up bodies with its first entry taken off. *)
Definition dequeued (s : NgScrollbar) : NgScrollbar :=
  set_subs (_unsubscribeStopped s) (breakpointSubs s) (updateSubs s)
           (resizeSubs s) (pred (pendingInit s)) s.

(** The component after one event.  A fault of [enable()] called directly or
    through the input setter goes to the caller; a fault of the queued body
    rejects its promise; either way the component is left as the fault found
    it and goes on. *)
Definition step (now : Z) (e : Event) (s : NgScrollbar) : NgScrollbar :=
  match e with
  | EvSetDisabled b => after s (setDisabled now b s)
  | EvAfterViewInit => ngAfterViewInit s
  | EvMicrotask => after (dequeued s) (runMicrotask now s)
  | EvDestroy => ngOnDestroy s
  | EvUpdate => update now s
  | EvEnable => after s (enable now s)
  | EvDisable => disable s
  | EvBreakpoint m => onBreakpoint now m s
  | EvResize => onWindowResize now s
  | EvMutation i => onMutation now i s
  | EvLayout sw sh cw ch => onLayout sw sh cw ch s
  end.

(** A history is a list of time-stamped events. *)
Fixpoint run (h : list (Z * Event)) (s : NgScrollbar) : NgScrollbar :=
  match h with
  | [] => s
  | (now, e) :: rest => run rest (step now e s)
  end.

(** ** Sample components *)

Definition element (id : nat) (scrollW scrollH clientW clientH : Z) : HTMLElement :=
  {| elementId := id; scrollWidth := scrollW; scrollHeight := scrollH;
     clientWidth := clientW; clientHeight := clientH |}.

Definition scrollableOf (el : option HTMLElement) : CdkScrollable :=
  {| getElementRef := {| nativeElement := el |} |}.

(** A component in the browser whose default viewport is [el]. *)
Definition mounted (el : HTMLElement) : NgScrollbar :=
  with_scrollViewport (scrollableOf (Some el)) (new_NgScrollbar PlatformBrowser).

(** Content of 2000px in a 500px viewport, on both axes. *)
Definition overflowing : HTMLElement := element 1 2000 2000 500 500.

(** Content of 400px in a 500px viewport, on both axes. *)
Definition fitting : HTMLElement := element 2 400 400 500 500.

(** ** The visibility policy as the specification words it *)

(** Section 4.3 of the specification, kept apart from the getters above so
    the two can be compared. *)
Definition shouldShowAxis_spec (mode : Shown) (axisTrackEnabled : bool)
    (scrollSize clientSize : Z) : bool :=
  if negb axisTrackEnabled then false
  else match mode with
       | native => false
       | always => true
       | hover => bool_decide (scrollSize > clientSize)
       end.

(** ** Derived definitions used by the statements *)

(** Repeated calls of [update()], one per time stamp. *)
Definition updates (ts : list Z) (s : NgScrollbar) : NgScrollbar :=
  fold_left (fun s t => update t s) ts s.

(** The history that brings a mounted component to life: the hook, its
    microtask, and the breakpoint observer reporting no match. *)
Definition startup : list (Z * Event) :=
  [(0, EvAfterViewInit); (0, EvMicrotask); (0, EvBreakpoint false)].

Definition live (el : HTMLElement) : NgScrollbar :=
  run startup (mounted el).

(** Ten pulses, 5ms apart, from 1000ms to 1045ms. *)
Definition burst10 : list Z :=
  [1000; 1005; 1010; 1015; 1020; 1025; 1030; 1035; 1040; 1045].

(** The observer [enable] creates and attaches when the three conditions of
    its inner test hold. *)
Definition attached (el : HTMLElement) : MutationObserver :=
  {| observing := Some (el, observerInit) |}.

Definition detached : MutationObserver := {| observing := None |}.

Definition observesContent (s : NgScrollbar) : bool :=
  negb (bool_decide (is_Some (customViewPort s))) && autoUpdate s
  && isPlatformBrowser (_platform s).

(** A custom viewport around [el], in the browser, inputs at their defaults. *)
Definition mountedCustom (el : HTMLElement) : NgScrollbar :=
  with_customViewPort {| virtualScrollViewport := scrollableOf (Some el) |}
    (new_NgScrollbar PlatformBrowser).

(** The children [view] reads, and the observer heap with the reference into
    it. *)
Definition children (s : NgScrollbar) := (customViewPort s, scrollViewport s).
Definition heap (s : NgScrollbar) := (observers s, _observer s).

(** The heap object at [n] is [ob] and [_observer] does not point at it. *)
Definition unreferenced (n : nat) (ob : MutationObserver) (s : NgScrollbar) : Prop :=
  observers s !! n = Some ob /\ forall i, _observer s = Some i -> i <> n.




Definition set_resizeSubs (rs : list Throttle) (s : NgScrollbar) : NgScrollbar :=
  set_subs (_unsubscribeStopped s) (breakpointSubs s) (updateSubs s) rs
           (pendingInit s) s.

(** Repeated window [resize] events, one per time stamp. *)
Definition resizes (ts : list Z) (s : NgScrollbar) : NgScrollbar :=
  fold_left (fun s t => onWindowResize t s) ts s.

(** A component seeing resize events and one receiving [update()] calls at
    the same times stay in step: same re-checks, the three throttles equal. *)
Definition inStep (sr su : NgScrollbar) : Prop :=
  disabled sr = disabled su /\
  markForCheckLog sr = markForCheckLog su /\
  exists th, resizeSubs sr = [th] /\ updateSubs sr = [th] /\ updateSubs su = [th].

(** ** Further getters and predicates *)

(** [get scrollable()]: the custom viewport when there is one, the default
    one (undefined until its query resolves) otherwise. *)
Definition scrollable (s : NgScrollbar) : option CdkScrollable :=
  match customViewPort s with
  | Some cv => Some (virtualScrollViewport cv)
  | None => scrollViewport s
  end.

(** The inputs and injected values, which no method assigns. *)
Definition configuration (s : NgScrollbar) :=
  (trackX s, trackY s, shown s, autoUpdate s, scrollToDuration s,
   disableOnBreakpoints s, _platform s).

(** Time stamps at least one throttle window apart. *)
Fixpoint spaced (l : list Z) : Prop :=
  match l with
  | a :: (b :: _) as rest => a + THROTTLE_WINDOW <= b /\ spaced rest
  | _ => True
  end.

(** The object [_observer] points at is on the heap, and is detached while
    [disabled] holds. *)
Definition heldObserverQuiet (s : NgScrollbar) : Prop :=
  forall i, _observer s = Some i ->
    exists ob, observers s !! i = Some ob /\ (disabled s = true -> ob = detached).

(** The two streams set up by the start-up body. *)
Definition streams (s : NgScrollbar) := (updateSubs s, resizeSubs s).

(** Events that do not invoke [disable()]. *)
Definition neverDisables (e : Event) : Prop :=
  e <> EvSetDisabled true /\ e <> EvDisable /\ e <> EvBreakpoint true.

(** Events other than a new layout of the viewport. *)
Definition noLayout (e : Event) : Prop :=
  forall sw sh cw ch, e <> EvLayout sw sh cw ch.

(** Whether [view] resolves, and to which node. *)
Definition viewNode (s : NgScrollbar) : Result (option nat) :=
  match view s with
  | Ok v => Ok (elementId <$> v)
  | Throw e => Throw e
  end.

(** ** Basic facts *)

Section Getters.
Variable s : NgScrollbar.
Variable el : HTMLElement.
Hypothesis Hview : view s = Ok (Some el).

Lemma showScrollbarY_eval :
  showScrollbarY s =
  Ok (if decide (shown s = always) then true
      else bool_decide (scrollHeight el > clientHeight el)).
Proof.
  unfold showScrollbarY. destruct (decide (shown s = always)); [done|].
  rewrite Hview. reflexivity.
Qed.

Lemma showScrollbarX_eval :
  showScrollbarX s =
  Ok (if decide (shown s = always) then true
      else bool_decide (scrollWidth el > clientWidth el)).
Proof.
  unfold showScrollbarX. destruct (decide (shown s = always)); [done|].
  rewrite Hview. reflexivity.
Qed.
End Getters.

(** ** Visibility getters *)

(** C1, counterexample: in mode 'native' with the vertical
    track on and 2000px of content in a 500px viewport, [showScrollbarY]
    answers true where the specification's policy answers false; and with the
    horizontal track off (the default) in mode 'hover', [showScrollbarX]
    answers true on the same overflow. *)
Lemma C1_getters_ignore_native_and_track :
  (shown (mounted overflowing) = native /\
   trackY (mounted overflowing) = true /\
   shouldShowAxis_spec native true 2000 500 = false /\
   showScrollbarY (mounted overflowing) <> Ok false /\
   showScrollbarY (mounted overflowing) = Ok true) /\
  (trackX (with_inputs false true hover true None (mounted overflowing)) = false /\
   showScrollbarX (with_inputs false true hover true None (mounted overflowing))
     <> Ok false /\
   showScrollbarX (with_inputs false true hover true None (mounted overflowing))
     = Ok true).
Proof.
  repeat split; try reflexivity; vm_compute; discriminate.
Qed.

(** C1, amended: the getters consult neither the track flags nor the
    'native' mode.  Whenever the viewport element exists they answer false
    exactly when the mode is not 'always' and the scroll size does not exceed
    the client size, whatever [trackX] and [trackY] are; so in mode 'native'
    they answer the overflow test. *)
Theorem C1_getters_false_iff (s : NgScrollbar) (el : HTMLElement) :
  view s = Ok (Some el) ->
  (showScrollbarY s = Ok false <->
     shown s <> always /\ scrollHeight el <= clientHeight el) /\
  (showScrollbarX s = Ok false <->
     shown s <> always /\ scrollWidth el <= clientWidth el) /\
  (shown s = native ->
     showScrollbarY s = Ok (bool_decide (scrollHeight el > clientHeight el)) /\
     showScrollbarX s = Ok (bool_decide (scrollWidth el > clientWidth el))).
Proof.
  intros Hv.
  rewrite (showScrollbarY_eval s el Hv), (showScrollbarX_eval s el Hv).
  destruct (decide (shown s = always)) as [Ha|Hna].
  - split; [|split].
    + split; [discriminate | intros [Hn _]; done].
    + split; [discriminate | intros [Hn _]; done].
    + congruence.
  - split; [|split].
    + split.
      * intros Hb. split; [done|]. injection Hb as Hb.
        apply bool_decide_eq_false in Hb. lia.
      * intros [_ Hle]. f_equal. apply bool_decide_eq_false. lia.
    + split.
      * intros Hb. split; [done|]. injection Hb as Hb.
        apply bool_decide_eq_false in Hb. lia.
      * intros [_ Hle]. f_equal. apply bool_decide_eq_false. lia.
    + done.
Qed.

Lemma C1_getters_false_iff_witness :
  view (mounted fitting) = Ok (Some fitting) /\
  showScrollbarY (mounted fitting) = Ok false.
Proof.
  split; [reflexivity|].
  apply (proj1 (C1_getters_false_iff (mounted fitting) fitting eq_refl)).
  split; [discriminate | vm_compute; discriminate].
Defined.

(** C2: with the axis track on, a getter answers true in mode 'always'
    whatever the sizes (it does not even read the viewport), and in mode
    'hover' it answers true exactly when the scroll size of its axis strictly
    exceeds the client size; it agrees there with the specification's
    policy. *)
Theorem C2_getters_always_and_hover (s : NgScrollbar) :
  (trackY s = true ->
     (shown s = always -> showScrollbarY s = Ok true) /\
     (forall el, shown s = hover -> view s = Ok (Some el) ->
        showScrollbarY s = Ok (bool_decide (scrollHeight el > clientHeight el)) /\
        (showScrollbarY s = Ok true <-> scrollHeight el > clientHeight el) /\
        showScrollbarY s =
          Ok (shouldShowAxis_spec hover true (scrollHeight el) (clientHeight el)))) /\
  (trackX s = true ->
     (shown s = always -> showScrollbarX s = Ok true) /\
     (forall el, shown s = hover -> view s = Ok (Some el) ->
        showScrollbarX s = Ok (bool_decide (scrollWidth el > clientWidth el)) /\
        (showScrollbarX s = Ok true <-> scrollWidth el > clientWidth el) /\
        showScrollbarX s =
          Ok (shouldShowAxis_spec hover true (scrollWidth el) (clientWidth el)))).
Proof.
  split; intros _; split.
  - intros Ha. unfold showScrollbarY. rewrite Ha. reflexivity.
  - intros el Hh Hv. rewrite (showScrollbarY_eval s el Hv), Hh. cbn.
    split; [done|]. split; [|done]. split.
    + intros Hb. injection Hb as Hb. by apply bool_decide_eq_true in Hb.
    + intros Hgt. f_equal. by apply bool_decide_eq_true.
  - intros Ha. unfold showScrollbarX. rewrite Ha. reflexivity.
  - intros el Hh Hv. rewrite (showScrollbarX_eval s el Hv), Hh. cbn.
    split; [done|]. split; [|done]. split.
    + intros Hb. injection Hb as Hb. by apply bool_decide_eq_true in Hb.
    + intros Hgt. f_equal. by apply bool_decide_eq_true.
Qed.

Lemma C2_getters_always_and_hover_witness :
  showScrollbarY (with_inputs true true always true None (mounted fitting)) = Ok true /\
  showScrollbarY (with_inputs true true hover true None (mounted fitting)) = Ok false /\
  showScrollbarX (with_inputs true true hover true None (mounted overflowing)) = Ok true.
Proof.
  split; [|split].
  - apply (proj1 (proj1 (C2_getters_always_and_hover
                    (with_inputs true true always true None (mounted fitting)))
             eq_refl)); reflexivity.
  - apply (proj1 (proj2 (proj1 (C2_getters_always_and_hover
                    (with_inputs true true hover true None (mounted fitting)))
             eq_refl) fitting eq_refl eq_refl)).
  - apply (proj1 (proj2 (proj2 (C2_getters_always_and_hover
                    (with_inputs true true hover true None (mounted overflowing)))
             eq_refl) overflowing eq_refl eq_refl)).
Defined.

(** ** The [disabled] flag and [update] *)

Lemma disabled_disable (s : NgScrollbar) : disabled (disable s) = true.
Proof. unfold disable. cbn. destruct (_observer s); reflexivity. Qed.

Lemma update_disabled (now : Z) (s : NgScrollbar) :
  disabled s = true -> update now s = s.
Proof. intros H. unfold update. rewrite H. reflexivity. Qed.

Lemma update_enabled (now : Z) (s : NgScrollbar) :
  disabled s = false -> update now s = updateObserver_next now s.
Proof. intros H. unfold update. rewrite H. reflexivity. Qed.

Lemma updates_disabled (ts : list Z) (s : NgScrollbar) :
  disabled s = true -> updates ts s = s.
Proof.
  intros H. induction ts as [|t ts IH]; [reflexivity|].
  unfold updates in *. cbn. rewrite (update_disabled t s H). exact IH.
Qed.

(** C4: while [disabled] is true, [update()] changes nothing and pushes no
    pulse; that is the case after [disable()], for any number of calls; once
    [disabled] is false, [update()] pushes exactly one pulse into the update
    stream. *)
Theorem C4_update_noop_while_disabled (s : NgScrollbar) (now : Z) :
  (disabled s = true ->
     update now s = s /\ updateEmissions (update now s) = updateEmissions s) /\
  (forall ts, disabled (disable s) = true /\ updates ts (disable s) = disable s) /\
  (disabled s = false ->
     updateEmissions (update now s) = updateEmissions s ++ [now] /\
     disabled (update now s) = false).
Proof.
  split; [|split].
  - intros H. rewrite (update_disabled now s H). done.
  - intros ts. split; [apply disabled_disable|].
    apply updates_disabled, disabled_disable.
  - intros H. rewrite (update_enabled now s H). cbn. done.
Qed.

Lemma C4_update_noop_while_disabled_witness :
  update 7 (disable (mounted overflowing)) = disable (mounted overflowing) /\
  updateEmissions (update 7 (mounted overflowing)) = [7].
Proof.
  split.
  - apply (proj1 (C4_update_noop_while_disabled (disable (mounted overflowing)) 7)).
    reflexivity.
  - apply (proj2 (proj2 (C4_update_noop_while_disabled (mounted overflowing) 7))).
    reflexivity.
Defined.

(** ** The throttled update stream *)

Lemma updateObserver_next_single (now : Z) (th : Throttle) (s : NgScrollbar) :
  updateSubs s = [th] ->
  updateObserver_next now s =
  set_streams (updateEmissions s ++ [now])
    (if throttleOpen now th then markForCheckLog s ++ [now] else markForCheckLog s)
    [if throttleOpen now th then Some (now + THROTTLE_WINDOW) else th] s.
Proof.
  intros H. unfold updateObserver_next, throttleTime. rewrite H. cbn.
  destruct (throttleOpen now th); cbn; [reflexivity|].
  rewrite app_nil_r. reflexivity.
Qed.

(** Pulses that arrive while the only subscription is throttled are logged
    by the subject and dropped by the operator. *)
Lemma updates_throttled (ts : list Z) (u : Z) (s : NgScrollbar) :
  disabled s = false ->
  updateSubs s = [Some u] ->
  Forall (fun t => t < u) ts ->
  updates ts s =
  set_streams (updateEmissions s ++ ts) (markForCheckLog s) [Some u] s.
Proof.
  revert s. induction ts as [|t ts IH]; intros s Hd Hs Hts.
  - cbn. rewrite app_nil_r. destruct s; cbn in *. subst. reflexivity.
  - inversion Hts as [|t' ts' Ht Hts']; subst.
    change (updates (t :: ts) s) with (updates ts (update t s)).
    rewrite (update_enabled t s Hd), (updateObserver_next_single t (Some u) s Hs).
    assert (Hc : throttleOpen t (Some u) = false).
    { cbn. apply bool_decide_eq_false. lia. }
    rewrite Hc. rewrite IH; [|done|done|done].
    cbn. rewrite <- app_assoc. reflexivity.
Qed.

(** C5, counterexample: the stream is throttled, not
    debounced.  Of ten pulses within 50ms the first is forwarded at once, at
    1000ms, which is sooner than the window after the last pulse
    (1045ms + 200ms); nothing fires after the burst has settled. *)
Lemma C5_recheck_not_after_last_pulse :
  disabled (live overflowing) = false /\
  markForCheckLog (live overflowing) = [0] /\
  markForCheckLog (updates burst10 (live overflowing)) = [0; 1000] /\
  ~ (forall t, In t (drop 1 (markForCheckLog (updates burst10 (live overflowing)))) ->
       1045 + THROTTLE_WINDOW <= t).
Proof.
  split; [vm_compute; reflexivity|]. split; [vm_compute; reflexivity|].
  split; [vm_compute; reflexivity|].
  intros H. specialize (H 1000).
  assert (Hin : In 1000 (drop 1 (markForCheckLog (updates burst10 (live overflowing)))))
    by (vm_compute; left; reflexivity).
  apply H in Hin. unfold THROTTLE_WINDOW in Hin. lia.
Qed.

(** C5, amended: for every burst of update pulses that starts while the
    throttle of the update stream is open and stays within one 200ms window,
    exactly one downstream re-check fires, at the time of the first pulse of
    the burst; the later pulses of the burst are pushed into the update
    stream but dropped by the throttle, which stays armed until 200ms after
    the first pulse. *)
Theorem C5_burst_one_leading_recheck (s : NgScrollbar) (th : Throttle)
    (t0 : Z) (ts : list Z) :
  disabled s = false ->
  updateSubs s = [th] ->
  throttleOpen t0 th = true ->
  Forall (fun t => t0 <= t < t0 + THROTTLE_WINDOW) ts ->
  markForCheckLog (updates (t0 :: ts) s) = markForCheckLog s ++ [t0] /\
  updateEmissions (updates (t0 :: ts) s) = updateEmissions s ++ t0 :: ts /\
  updateSubs (updates (t0 :: ts) s) = [Some (t0 + THROTTLE_WINDOW)].
Proof.
  intros Hd Hs Ho Hts.
  change (updates (t0 :: ts) s) with (updates ts (update t0 s)).
  rewrite (update_enabled t0 s Hd), (updateObserver_next_single t0 th s Hs), Ho.
  rewrite updates_throttled with (u := t0 + THROTTLE_WINDOW); [|done|done|].
  - cbn. rewrite <- app_assoc. done.
  - induction Hts as [|t ts' Ht _ IH]; constructor; [lia | exact IH].
Qed.

Lemma C5_burst_one_leading_recheck_witness :
  markForCheckLog (updates burst10 (live overflowing)) =
    markForCheckLog (live overflowing) ++ [1000] /\
  updateEmissions (updates burst10 (live overflowing)) =
    updateEmissions (live overflowing) ++ burst10.
Proof.
  assert (Hd : disabled (live overflowing) = false) by (vm_compute; reflexivity).
  assert (Hs : updateSubs (live overflowing) = [None]) by (vm_compute; reflexivity).
  assert (Hts : Forall (fun t => 1000 <= t < 1000 + THROTTLE_WINDOW) (tail burst10))
    by (unfold THROTTLE_WINDOW, burst10; cbn [tail]; repeat constructor; lia).
  destruct (C5_burst_one_leading_recheck (live overflowing) None 1000
              (tail burst10) Hd Hs eq_refl Hts) as (H1 & H2 & _).
  split; [exact H1 | exact H2].
Defined.


(** ** [enable] and [disable] on the observer heap *)

Lemma insert_at_end {A} (l : list A) (x y : A) :
  <[length l := x]> (l ++ [y]) = l ++ [x].
Proof. induction l as [|a l IH]; cbn; [reflexivity | f_equal; exact IH]. Qed.

(** [view] reads the two children only. *)
Lemma view_frame (s s' : NgScrollbar) :
  customViewPort s' = customViewPort s ->
  scrollViewport s' = scrollViewport s ->
  view s' = view s.
Proof. intros Hc Hs. unfold view. rewrite Hc, Hs. reflexivity. Qed.

Lemma enable_eval (now : Z) (s : NgScrollbar) (el : HTMLElement) :
  view s = Ok (Some el) ->
  enable now s =
  Ok (let s1 := markForCheck now (set_disabled false s) in
      if observesContent s
      then set_observer (Some (length (observers s)))
                        (observers s ++ [attached el]) s1
      else s1).
Proof.
  intros Hv. unfold enable. rewrite Hv. cbn -[view].
  unfold observesContent.
  destruct (negb (bool_decide (is_Some (customViewPort s))) && autoUpdate s
            && isPlatformBrowser (_platform s)); [|reflexivity].
  rewrite (view_frame s) by reflexivity.
  rewrite Hv. cbn. rewrite insert_at_end. reflexivity.
Qed.

Lemma enable_null_element (now : Z) (s : NgScrollbar) :
  view s = Ok None -> enable now s = Ok s.
Proof. intros Hv. unfold enable. rewrite Hv. reflexivity. Qed.

Lemma enable_unresolved (now : Z) (s : NgScrollbar) (e : Error) :
  view s = Throw e -> enable now s = Throw e.
Proof. intros Hv. unfold enable. rewrite Hv. reflexivity. Qed.

(** C7: [enable()] on a component whose viewport is not there yet.  A freshly
    constructed component (the [scrollViewport] query unresolved, no custom
    viewport) makes the [view] getter dereference [undefined]:
    [enable()] raises a [TypeError] before its guard [if (this.view)] is
    reached, instead of doing nothing. *)
Theorem C7_enable_faults_on_unresolved_viewport (p : Platform) (now : Z) :
  scrollViewport (new_NgScrollbar p) = None /\
  customViewPort (new_NgScrollbar p) = None /\
  enable now (new_NgScrollbar p) =
    Throw (TypeError "Cannot read property 'getElementRef' of undefined") /\
  enable now (new_NgScrollbar p) <> Ok (new_NgScrollbar p).
Proof. repeat split. discriminate. Qed.

(** What does hold of the guard: a resolved viewport whose native element is
    null makes [enable()] return without touching anything. *)
Lemma enable_noop_on_null_element (now : Z) (s : NgScrollbar) (sv : CdkScrollable) :
  customViewPort s = None ->
  scrollViewport s = Some sv ->
  nativeElement (getElementRef sv) = None ->
  enable now s = Ok s.
Proof.
  intros Hc Hs Hn. apply enable_null_element. unfold view. by rewrite Hc, Hs, Hn.
Qed.

(** C8, counterexample, on two counts.  With a custom viewport,
    auto-update on and in the browser, a successful [enable()] creates no
    observer at all; and with the default viewport, [enable()] attaches the
    observer but pushes no pulse into the update stream: it marks the view
    for check directly. *)
Lemma C8_enable_no_pulse_and_no_observer_for_custom_view :
  (autoUpdate (mountedCustom overflowing) = true /\
   isPlatformBrowser (_platform (mountedCustom overflowing)) = true /\
   view (mountedCustom overflowing) = Ok (Some overflowing) /\
   match enable 0 (mountedCustom overflowing) with
   | Ok s' => disabled s' = false /\ observers s' = [] /\ _observer s' = None
   | Throw _ => False
   end) /\
  match enable 0 (mounted overflowing) with
  | Ok s' => observers s' = [attached overflowing] /\
             updateEmissions s' = [] /\ updateEmissions s' <> [0] /\
             markForCheckLog s' = [0]
  | Throw _ => False
  end.
Proof. vm_compute. repeat split; discriminate. Qed.

Lemma observesContent_true (s : NgScrollbar) :
  observesContent s = true <->
  customViewPort s = None /\ autoUpdate s = true /\
  isPlatformBrowser (_platform s) = true.
Proof.
  unfold observesContent.
  destruct (customViewPort s), (autoUpdate s), (isPlatformBrowser (_platform s));
    cbn; split; try done; intros (? & ? & ?); done.
Qed.

Lemma observesContent_false (s : NgScrollbar) :
  observesContent s = false <->
  is_Some (customViewPort s) \/ autoUpdate s = false \/
  isPlatformBrowser (_platform s) = false.
Proof.
  unfold observesContent.
  destruct (customViewPort s), (autoUpdate s), (isPlatformBrowser (_platform s));
    cbn; split; try done; eauto;
    intros [[? ?]|[?|?]]; done.
Qed.

(** C8, amended: whenever [enable()] succeeds (the viewport element exists)
    it clears [disabled] and marks the view for check, pushing no pulse into
    the update stream.  If moreover no custom viewport is supplied,
    auto-update is configured and the platform is a browser, it creates a
    mutation observer on the viewport element for subtree, child-list and
    character-data mutations, whose callback is [update()]; otherwise it
    creates none. *)
Theorem C8_enable_marks_and_observes (s : NgScrollbar) (el : HTMLElement) (now : Z) :
  view s = Ok (Some el) ->
  exists s',
    enable now s = Ok s' /\
    disabled s' = false /\
    markForCheckLog s' = markForCheckLog s ++ [now] /\
    updateEmissions s' = updateEmissions s /\
    (customViewPort s = None -> autoUpdate s = true ->
     isPlatformBrowser (_platform s) = true ->
       _observer s' = Some (length (observers s)) /\
       observers s' = observers s ++
         [{| observing := Some (el, {| subtree := true; childList := true;
                                       characterData := true |}) |}] /\
       forall t, onMutation t (length (observers s)) s' = update t s') /\
    (is_Some (customViewPort s) \/ autoUpdate s = false \/
     isPlatformBrowser (_platform s) = false ->
       _observer s' = _observer s /\ observers s' = observers s).
Proof.
  intros Hv. eexists. split; [apply (enable_eval now s el Hv)|].
  cbv zeta. destruct (observesContent s) eqn:Hoc.
  - split; [reflexivity|]. split; [reflexivity|]. split; [reflexivity|]. split.
    + intros _ _ _. split; [reflexivity|]. split; [reflexivity|].
      intros t. unfold onMutation. cbn.
      rewrite lookup_app_r; [|lia]. rewrite Nat.sub_diag. reflexivity.
    + intros Hno. apply observesContent_false in Hno. congruence.
  - split; [reflexivity|]. split; [reflexivity|]. split; [reflexivity|]. split.
    + intros Hc Ha Hp.
      assert (observesContent s = true) by (apply observesContent_true; done).
      congruence.
    + intros _. split; reflexivity.
Qed.

Lemma C8_enable_marks_and_observes_witness :
  exists s',
    enable 0 (mounted overflowing) = Ok s' /\
    markForCheckLog s' = [0] /\ updateEmissions s' = [] /\
    observers s' = [attached overflowing].
Proof.
  destruct (C8_enable_marks_and_observes (mounted overflowing) overflowing 0 eq_refl)
    as (s' & He & _ & Hm & Hu & Hobs & _).
  exists s'. split; [exact He|]. split; [exact Hm|]. split; [exact Hu|].
  apply (Hobs eq_refl eq_refl eq_refl).
Defined.

(** ** What each operation leaves alone *)

Lemma view_children (s s' : NgScrollbar) :
  children s' = children s -> view s' = view s.
Proof. intros [= Hc Hs]. by apply view_frame. Qed.

Lemma update_frame (now : Z) (s : NgScrollbar) :
  children (update now s) = children s /\
  heap (update now s) = heap s /\
  disabled (update now s) = disabled s /\
  breakpointSubs (update now s) = breakpointSubs s /\
  resizeSubs (update now s) = resizeSubs s.
Proof. unfold update. destruct (disabled s) eqn:Hd; cbn; rewrite ?Hd; done. Qed.

Lemma resizeDeliver_frame (now : Z) (subs : list Throttle) (s : NgScrollbar) :
  let s' := snd (resizeDeliver now subs s) in
  children s' = children s /\ heap s' = heap s /\
  disabled s' = disabled s /\ breakpointSubs s' = breakpointSubs s.
Proof.
  revert s. induction subs as [|th subs IH]; intros s; cbn; [done|].
  destruct (throttleTime now th) as [th' passed].
  specialize (IH (if passed then update now s else s)).
  destruct (resizeDeliver now subs (if passed then update now s else s))
    as [rest' s2]. cbn in *.
  destruct IH as (-> & -> & -> & ->).
  destruct passed; [|done].
  destruct (update_frame now s) as (-> & -> & -> & -> & _). done.
Qed.

Lemma onWindowResize_frame (now : Z) (s : NgScrollbar) :
  children (onWindowResize now s) = children s /\
  heap (onWindowResize now s) = heap s /\
  disabled (onWindowResize now s) = disabled s /\
  breakpointSubs (onWindowResize now s) = breakpointSubs s.
Proof.
  unfold onWindowResize.
  pose proof (resizeDeliver_frame now (resizeSubs s) s) as H.
  destruct (resizeDeliver now (resizeSubs s) s) as [rs s1]. exact H.
Qed.

Lemma onMutation_frame (now : Z) (i : nat) (s : NgScrollbar) :
  children (onMutation now i s) = children s /\
  heap (onMutation now i s) = heap s /\
  disabled (onMutation now i s) = disabled s /\
  breakpointSubs (onMutation now i s) = breakpointSubs s.
Proof.
  unfold onMutation.
  destruct (observers s !! i) as [[[p|]]|]; try done.
  destruct (update_frame now s) as (-> & -> & -> & -> & _). done.
Qed.

Lemma disable_frame (s : NgScrollbar) :
  children (disable s) = children s /\
  _observer (disable s) = _observer s /\
  breakpointSubs (disable s) = breakpointSubs s /\
  observers (disable s) =
    match _observer s with
    | Some i => <[i := detached]> (observers s)
    | None => observers s
    end.
Proof.
  unfold disable. cbn.
  destruct (_observer s) eqn:Ho; cbn; rewrite ?Ho; done.
Qed.

Lemma ngOnDestroy_frame (s : NgScrollbar) :
  children (ngOnDestroy s) = children s /\
  _observer (ngOnDestroy s) = _observer s /\
  disabled (ngOnDestroy s) = disabled s /\
  observers (ngOnDestroy s) =
    match _observer s with
    | Some i => <[i := detached]> (observers s)
    | None => observers s
    end.
Proof.
  unfold ngOnDestroy.
  destruct (_unsubscribeStopped s); cbn;
    destruct (_observer s) eqn:Ho; cbn; rewrite ?Ho; done.
Qed.

(** [enable], case by case on what [view] yields. *)
Lemma enable_inv (now : Z) (s s' : NgScrollbar) :
  enable now s = Ok s' ->
  children s' = children s /\
  breakpointSubs s' = breakpointSubs s /\
  (heap s' = heap s \/
   exists el, observers s' = observers s ++ [attached el] /\
              _observer s' = Some (length (observers s))).
Proof.
  intros He. destruct (view s) as [[el|]|e] eqn:Hv.
  - rewrite (enable_eval now s el Hv) in He. injection He as <-.
    destruct (observesContent s); cbn; [|by auto].
    split; [done|]. split; [done|]. right. by exists el.
  - rewrite (enable_null_element now s Hv) in He. injection He as <-. by auto.
  - by rewrite (enable_unresolved now s e Hv) in He.
Qed.


Lemma view_onLayout (sw sh cw ch : Z) (s : NgScrollbar) :
  view (onLayout sw sh cw ch s) =
  match view s with
  | Ok v => Ok (relaid sw sh cw ch <$> v)
  | Throw e => Throw e
  end.
Proof.
  unfold onLayout, view.
  destruct (customViewPort s) as [cv|]; [done|].
  by destruct (scrollViewport s).
Qed.

(** The only fault of [enable()] and of the queued body is the one of the
    [view] getter, raised before either has assigned anything. *)
Lemma fault_before_assignment (now : Z) (s : NgScrollbar) (e : Error) :
  (enable now s = Throw e -> view s = Throw e) /\
  (afterViewInitBody now s = Throw e -> enable now s = Throw e).
Proof.
  split.
  - destruct (view s) as [[el|]|e'] eqn:Hv.
    + by rewrite (enable_eval now s el Hv).
    + by rewrite (enable_null_element now s Hv).
    + intros He. rewrite (enable_unresolved now s e' Hv) in He. congruence.
  - unfold afterViewInitBody. destruct (disabled s); cbn -[enable].
    + by destruct (isPlatformBrowser (_platform s)).
    + destruct (disableOnBreakpoints s); cbn -[enable].
      * by destruct (isPlatformBrowser (_platform s)).
      * destruct (enable now s) as [s1|e'] eqn:He; cbn; [|done].
        by destruct (isPlatformBrowser (_platform s1)).
Qed.

(** A property kept by the methods and by the DOM is kept by every event.
    [layoutOK] and [disableOK] tell whether new layouts and [disable()]
    keep it too; where they do not, the events that bring them about are
    left out. *)
Section Preserved.
Variable P : NgScrollbar -> Prop.
Variables layoutOK disableOK : Prop.
Hypothesis P_enable : forall now s s', P s -> enable now s = Ok s' -> P s'.
Hypothesis P_disable : disableOK -> forall s, P s -> P (disable s).
Hypothesis P_destroy : forall s, P s -> P (ngOnDestroy s).
Hypothesis P_update : forall now s, P s -> P (update now s).
Hypothesis P_subs :
  forall stopped bp us rs pend s, P s -> P (set_subs stopped bp us rs pend s).
Hypothesis P_layout :
  layoutOK -> forall sw sh cw ch s, P s -> P (onLayout sw sh cw ch s).

Lemma preserved_after_enable (now : Z) (s : NgScrollbar) :
  P s -> P (after s (enable now s)).
Proof.
  intros H. destruct (enable now s) as [s'|e] eqn:He; [|done].
  by apply (P_enable now s).
Qed.

Lemma preserved_resizeDeliver (now : Z) (subs : list Throttle) (s : NgScrollbar) :
  P s -> P (snd (resizeDeliver now subs s)).
Proof.
  revert s. induction subs as [|th subs IH]; intros s H; cbn; [done|].
  destruct (throttleTime now th) as [th' passed].
  specialize (IH (if passed then update now s else s)).
  destruct (resizeDeliver now subs (if passed then update now s else s))
    as [rest' s2]. cbn in *. apply IH.
  destruct passed; [by apply P_update | done].
Qed.

Lemma preserved_onWindowResize (now : Z) (s : NgScrollbar) :
  P s -> P (onWindowResize now s).
Proof.
  intros H. unfold onWindowResize.
  pose proof (preserved_resizeDeliver now (resizeSubs s) s H) as Hr.
  destruct (resizeDeliver now (resizeSubs s) s) as [rs s1]. by apply P_subs.
Qed.

Lemma preserved_onMutation (now : Z) (i : nat) (s : NgScrollbar) :
  P s -> P (onMutation now i s).
Proof.
  intros H. unfold onMutation.
  destruct (observers s !! i) as [[[p|]]|]; try done. by apply P_update.
Qed.

Lemma preserved_body (now : Z) (s s' : NgScrollbar) :
  P s -> afterViewInitBody now s = Ok s' -> P s'.
Proof.
  intros H. unfold afterViewInitBody.
  destruct (disabled s); cbn -[enable].
  - destruct (isPlatformBrowser (_platform s)); intros [= <-];
      repeat apply P_subs; done.
  - destruct (disableOnBreakpoints s); cbn -[enable].
    + destruct (isPlatformBrowser (_platform s)); intros [= <-];
        repeat apply P_subs; done.
    + destruct (enable now s) as [s1|e] eqn:He; cbn; [|done].
      pose proof (P_enable now s s1 H He) as H1.
      destruct (isPlatformBrowser (_platform s1)); intros [= <-];
        repeat apply P_subs; done.
Qed.

Lemma preserved_microtask (now : Z) (s : NgScrollbar) :
  P s -> P (after (dequeued s) (runMicrotask now s)).
Proof.
  intros H. unfold runMicrotask, dequeued.
  destruct (pendingInit s) as [|n]; [done|]. cbn [pred].
  destruct (afterViewInitBody now _) as [s'|e] eqn:Hb; cbn.
  - eapply preserved_body; [|exact Hb]. by apply P_subs.
  - by apply P_subs.
Qed.

Lemma preserved_breakpoint_enable (n : nat) (now : Z) (s : NgScrollbar) :
  P s -> P (breakpointDeliver n now false s).
Proof.
  revert s. induction n as [|n IH]; intros s H; cbn -[enable]; [done|].
  apply IH. destruct (enable now s) as [s'|e] eqn:He.
  - by apply (P_enable now s).
  - by apply P_subs.
Qed.

Lemma preserved_breakpoint_disable (n : nat) (now : Z) (s : NgScrollbar) :
  disableOK -> P s -> P (breakpointDeliver n now true s).
Proof.
  intros Hok. revert s. induction n as [|n IH]; intros s H; cbn; [done|].
  apply IH. by apply P_disable.
Qed.

Lemma preserved_step (now : Z) (e : Event) (s : NgScrollbar) :
  noLayout e \/ layoutOK ->
  neverDisables e \/ disableOK ->
  P s -> P (step now e s).
Proof.
  intros Hl Hd H. destruct e as [b| | | | | | |m| |i|sw sh cw ch]; cbn -[enable].
  - destruct b; [|by apply preserved_after_enable].
    cbn. apply P_disable; [|done]. by destruct Hd as [[Hn _]|Hok].
  - by apply P_subs.
  - by apply preserved_microtask.
  - by apply P_destroy.
  - by apply P_update.
  - by apply preserved_after_enable.
  - apply P_disable; [|done]. by destruct Hd as [(_ & Hn & _)|Hok].
  - unfold onBreakpoint. destruct m; [|by apply preserved_breakpoint_enable].
    apply preserved_breakpoint_disable; [|done].
    by destruct Hd as [(_ & _ & Hn)|Hok].
  - by apply preserved_onWindowResize.
  - by apply preserved_onMutation.
  - apply P_layout; [|done]. destruct Hl as [Hn|Hok]; [|done].
    by destruct (Hn sw sh cw ch).
Qed.

Lemma preserved_run (h : list (Z * Event)) (s : NgScrollbar) :
  Forall (fun te => noLayout (snd te)) h \/ layoutOK ->
  Forall (fun te => neverDisables (snd te)) h \/ disableOK ->
  P s -> P (run h s).
Proof.
  revert s. induction h as [|[now e] h IH]; intros s Hl Hd H; cbn -[step]; [done|].
  apply IH.
  - destruct Hl as [Hl|Hl]; [left; by inversion Hl | by right].
  - destruct Hd as [Hd|Hd]; [left; by inversion Hd | by right].
  - apply preserved_step; [| |done].
    + destruct Hl as [Hl|Hl]; [left; by inversion Hl | by right].
    + destruct Hd as [Hd|Hd]; [left; by inversion Hd | by right].
Qed.
End Preserved.

(** A viewport that resolves keeps resolving, to the same node. *)
Lemma run_viewNode (h : list (Z * Event)) (s : NgScrollbar) :
  viewNode (run h s) = viewNode s.
Proof.
  apply (preserved_run (fun x => viewNode x = viewNode s) True True);
    try (by right); try done.
  - intros now x x' Hx He. apply enable_inv in He as (Hc & _).
    unfold viewNode. rewrite (view_children x x' Hc). exact Hx.
  - intros _ x Hx. destruct (disable_frame x) as (Hc & _).
    unfold viewNode. rewrite (view_children x _ Hc). exact Hx.
  - intros x Hx. destruct (ngOnDestroy_frame x) as (Hc & _).
    unfold viewNode. rewrite (view_children x _ Hc). exact Hx.
  - intros now x Hx. destruct (update_frame now x) as (Hc & _).
    unfold viewNode. rewrite (view_children x _ Hc). exact Hx.
  - intros _ sw sh cw ch x Hx. rewrite <- Hx. unfold viewNode.
    rewrite view_onLayout. destruct (view x) as [[el|]|]; done.
Qed.


(** ** The initial state *)

(** C3, counterexample: the field initialiser is
    [disabled = false], so a freshly constructed component is not disabled. *)
Lemma C3_initial_disabled_is_not_true :
  disabled (new_NgScrollbar PlatformBrowser) <> true.
Proof. discriminate. Qed.

Lemma run_stays_enabled (h : list (Z * Event)) (s : NgScrollbar) :
  disabled s = false ->
  Forall (fun te => neverDisables (snd te)) h ->
  disabled (run h s) = false.
Proof.
  intros Hd Hh.
  apply (preserved_run (fun x => disabled x = false) True False);
    try (by right); try (by left); try done.
  - intros now x x' Hx He. destruct (view x) as [[el|]|e] eqn:Hv.
    + rewrite (enable_eval now x el Hv) in He. injection He as <-.
      cbv zeta. by destruct (observesContent x).
    + rewrite (enable_null_element now x Hv) in He. by injection He as <-.
    + by rewrite (enable_unresolved now x e Hv) in He.
  - intros x Hx. destruct (ngOnDestroy_frame x) as (_ & _ & -> & _). exact Hx.
  - intros now x Hx. destruct (update_frame now x) as (_ & _ & -> & _). exact Hx.
  - intros _ sw sh cw ch x Hx. unfold onLayout. by destruct (customViewPort x).
Qed.

(** C3, amended: at controller initialization [disabled] is false, and the
    layout of the custom scrollbar already applies (the native bar of the
    tracked vertical axis is pushed 18px out of the viewport).  From any
    state in which it is false it stays false over every history that does
    not invoke [disable()] (through the [disabled] input set to true, an
    explicit call, or a breakpoint notification that matches), hence through
    the first evaluation queued by the lifecycle and beyond; the [disabled]
    input set to true, or [disable()], makes it true at once, also before
    that first evaluation. *)
Theorem C3_initial_state_not_disabled (p : Platform) :
  disabled (new_NgScrollbar p) = false /\
  hideNativeScrollbars (new_NgScrollbar p) =
    {| width := "calc(100% + 18px)"; height := "100%" |} /\
  (forall v, disabled (with_scrollViewport v (new_NgScrollbar p)) = false) /\
  (forall s h,
     disabled s = false ->
     Forall (fun te => neverDisables (snd te)) h ->
     disabled (run h s) = false) /\
  (forall s now,
     disabled (step now (EvSetDisabled true) s) = true /\
     disabled (step now EvDisable s) = true).
Proof.
  split; [reflexivity|]. split; [reflexivity|]. split; [reflexivity|]. split.
  - intros s h. apply run_stays_enabled.
  - intros s now. split; apply disabled_disable.
Qed.

Lemma C3_initial_state_not_disabled_witness :
  disabled (run startup (mounted overflowing)) = false.
Proof.
  apply (proj1 (proj2 (proj2 (proj2
           (C3_initial_state_not_disabled PlatformBrowser))))).
  - reflexivity.
  - unfold startup, neverDisables. repeat constructor; discriminate.
Defined.

(** ** Observers that nothing refers to any more *)

Section Unreferenced.
Variable n : nat.
Variable ob : MutationObserver.

Lemma unreferenced_heap (s s' : NgScrollbar) :
  heap s' = heap s -> unreferenced n ob s -> unreferenced n ob s'.
Proof. intros [= Ho Hr] [H1 H2]. split; [by rewrite Ho | by rewrite Hr]. Qed.

Lemma unreferenced_enable (now : Z) (s s' : NgScrollbar) :
  unreferenced n ob s -> enable now s = Ok s' -> unreferenced n ob s'.
Proof.
  intros Hu He. apply enable_inv in He as (_ & _ & [Hh|(el & Ho & Hr)]).
  - by apply (unreferenced_heap s).
  - destruct Hu as [H1 H2]. apply lookup_lt_Some in H1 as Hlt. split.
    + rewrite Ho. by apply lookup_app_l_Some.
    + rewrite Hr. intros i [= <-]. lia.
Qed.

Lemma unreferenced_detach (s s' : NgScrollbar) :
  _observer s' = _observer s ->
  observers s' =
    match _observer s with
    | Some i => <[i := detached]> (observers s)
    | None => observers s
    end ->
  unreferenced n ob s -> unreferenced n ob s'.
Proof.
  intros Hr Ho [H1 H2]. split; [|by rewrite Hr].
  rewrite Ho. destruct (_observer s) as [i|]; [|done].
  rewrite list_lookup_insert_ne; [done|]. by apply H2.
Qed.

Lemma unreferenced_disable (s : NgScrollbar) :
  unreferenced n ob s -> unreferenced n ob (disable s).
Proof.
  destruct (disable_frame s) as (_ & Hr & _ & Ho). by apply unreferenced_detach.
Qed.

Lemma unreferenced_run (h : list (Z * Event)) (s : NgScrollbar) :
  unreferenced n ob s -> unreferenced n ob (run h s).
Proof.
  apply (preserved_run (unreferenced n ob) True True); try (by right).
  - intros now x x' Hx He. by apply (unreferenced_enable now x).
  - intros _ x Hx. by apply unreferenced_disable.
  - intros x Hx. destruct (ngOnDestroy_frame x) as (_ & Hr & _ & Ho).
    by apply (unreferenced_detach x).
  - intros now x Hx. apply (unreferenced_heap x); [|done]. apply update_frame.
  - intros stopped bp us rs pend x Hx. by apply (unreferenced_heap x).
  - intros _ sw sh cw ch x Hx. apply (unreferenced_heap x); [|done].
    unfold onLayout. by destruct (customViewPort x).
Qed.
End Unreferenced.

(** C10: with auto-update on, in the browser, without a custom viewport and
    with the viewport element present, two calls of [enable()] with no
    [disable()] between them each create, store and attach a new observer and
    leave the earlier one attached.  [disable()] and [ngOnDestroy()] then
    detach the one stored last only; whatever happens afterwards, the earlier
    one is never detached, and its mutations still call [update()]. *)
Theorem C10_repeated_enable_leaks_observer (s : NgScrollbar) (el : HTMLElement)
    (t1 t2 : Z) :
  view s = Ok (Some el) ->
  customViewPort s = None ->
  autoUpdate s = true ->
  isPlatformBrowser (_platform s) = true ->
  let n := length (observers s) in
  exists s1 s2,
    enable t1 s = Ok s1 /\ enable t2 s1 = Ok s2 /\
    _observer s1 = Some n /\ observers s1 = observers s ++ [attached el] /\
    _observer s2 = Some (S n) /\
    observers s2 = observers s ++ [attached el; attached el] /\
    observers (disable s2) = observers s ++ [attached el; detached] /\
    observers (ngOnDestroy s2) = observers s ++ [attached el; detached] /\
    (forall h,
        observers (run h s2) !! n = Some (attached el) /\
        forall t, onMutation t n (run h s2) = update t (run h s2)).
Proof.
  intros Hv Hc Ha Hp n.
  assert (Hoc : observesContent s = true) by (by apply observesContent_true).
  pose proof (enable_eval t1 s el Hv) as He1. cbv zeta in He1. rewrite Hoc in He1.
  set (s1 := set_observer (Some (length (observers s)))
               (observers s ++ [attached el])
               (markForCheck t1 (set_disabled false s))) in He1.
  assert (Hv1 : view s1 = Ok (Some el)) by (by rewrite (view_frame s)).
  assert (Hoc1 : observesContent s1 = true) by exact Hoc.
  pose proof (enable_eval t2 s1 el Hv1) as He2. cbv zeta in He2. rewrite Hoc1 in He2.
  set (s2 := set_observer (Some (length (observers s1)))
               (observers s1 ++ [attached el])
               (markForCheck t2 (set_disabled false s1))) in He2.
  assert (Hlen : length (observers s1) = S n).
  { subst s1. cbn. rewrite length_app. cbn. lia. }
  assert (Hobs2 : observers s2 = observers s ++ [attached el; attached el]).
  { subst s2 s1. cbn. by rewrite <- app_assoc. }
  assert (Hdet : <[S n := detached]> (observers s2) =
                 observers s ++ [attached el; detached]).
  { rewrite Hobs2. rewrite insert_app_r_alt; [|lia].
    replace (S n - length (observers s))%nat with 1%nat by lia. reflexivity. }
  assert (Hr2 : _observer s2 = Some (S n)).
  { change (_observer s2) with (Some (length (observers s1))). by rewrite Hlen. }
  exists s1, s2. split; [exact He1|]. split; [exact He2|].
  split; [reflexivity|]. split; [reflexivity|]. split; [exact Hr2|].
  split; [exact Hobs2|]. split; [|split].
  - destruct (disable_frame s2) as (_ & _ & _ & ->). by rewrite Hr2.
  - destruct (ngOnDestroy_frame s2) as (_ & _ & _ & ->). by rewrite Hr2.
  - intros h.
    assert (Hu : unreferenced n (attached el) s2).
    { split.
      - rewrite Hobs2. rewrite lookup_app_r; [|lia].
        by replace (n - length (observers s))%nat with 0%nat by lia.
      - rewrite Hr2. intros i [= <-]. lia. }
    destruct (unreferenced_run n (attached el) h s2 Hu) as [Hl _].
    split; [exact Hl|]. intros t. unfold onMutation. by rewrite Hl.
Qed.

Lemma C10_repeated_enable_leaks_observer_witness :
  exists s1 s2,
    enable 0 (mounted overflowing) = Ok s1 /\ enable 10 s1 = Ok s2 /\
    observers (disable s2) = [attached overflowing; detached] /\
    observers (ngOnDestroy s2) = [attached overflowing; detached].
Proof.
  destruct (C10_repeated_enable_leaks_observer (mounted overflowing) overflowing
              0 10 eq_refl eq_refl eq_refl eq_refl)
    as (s1 & s2 & H1 & H2 & _ & _ & _ & _ & Hd & Hx & _).
  exists s1, s2. split; [exact H1|]. split; [exact H2|]. split; [exact Hd | exact Hx].
Defined.

(** ** The breakpoint subscription *)
















(** ** The resize stream *)

Lemma set_resizeSubs_same (s : NgScrollbar) : set_resizeSubs (resizeSubs s) s = s.
Proof. by destruct s. Qed.

(** One resize subscription: the event passes its throttle and calls
    [update()], or is dropped there. *)
Lemma onWindowResize_single (now : Z) (th : Throttle) (s : NgScrollbar) :
  resizeSubs s = [th] ->
  onWindowResize now s =
  if throttleOpen now th
  then set_resizeSubs [Some (now + THROTTLE_WINDOW)] (update now s)
  else s.
Proof.
  intros H. unfold onWindowResize. rewrite H. cbn. unfold throttleTime.
  destruct (throttleOpen now th); cbn; [reflexivity|].
  rewrite <- H. apply set_resizeSubs_same.
Qed.

Lemma inStep_step (t : Z) (sr su : NgScrollbar) :
  inStep sr su -> disabled sr = false ->
  inStep (onWindowResize t sr) (update t su) /\
  disabled (onWindowResize t sr) = false.
Proof.
  intros (Hd & Hm & th & Hr & Hur & Huu) Hdr.
  assert (Hdu : disabled su = false) by congruence.
  rewrite (onWindowResize_single t th sr Hr).
  rewrite (update_enabled t su Hdu), (updateObserver_next_single t th su Huu).
  destruct (throttleOpen t th) eqn:Ho.
  - rewrite (update_enabled t sr Hdr), (updateObserver_next_single t th sr Hur), Ho.
    split; [|exact Hdr]. split; [cbn; congruence|]. split; [cbn; congruence|].
    by exists (Some (t + THROTTLE_WINDOW)).
  - split; [|exact Hdr]. split; [cbn; congruence|]. split; [cbn; congruence|].
    by exists th.
Qed.

Lemma resizes_inStep (ts : list Z) (sr su : NgScrollbar) :
  inStep sr su -> disabled sr = false ->
  markForCheckLog (resizes ts sr) = markForCheckLog (updates ts su).
Proof.
  revert sr su. induction ts as [|t ts IH]; intros sr su Hi Hd.
  - apply Hi.
  - destruct (inStep_step t sr su Hi Hd) as [Hi' Hd'].
    exact (IH _ _ Hi' Hd').
Qed.

Lemma resizes_disabled (ts : list Z) (s : NgScrollbar) :
  disabled s = true -> markForCheckLog (resizes ts s) = markForCheckLog s.
Proof.
  revert s. induction ts as [|t ts IH]; intros s Hd; [reflexivity|].
  change (resizes (t :: ts) s) with (resizes ts (onWindowResize t s)).
  destruct (onWindowResize_frame t s) as (_ & _ & Hd' & _).
  rewrite IH by congruence.
  unfold onWindowResize.
  assert (H : forall subs x, disabled x = true ->
            markForCheckLog (snd (resizeDeliver t subs x)) = markForCheckLog x).
  { clear. induction subs as [|th subs IHs]; intros x Hx; cbn; [done|].
    destruct (throttleTime t th) as [th' passed].
    assert (Hsame : (if passed then update t x else x) = x).
    { destruct passed; [by apply update_disabled | done]. }
    rewrite Hsame. specialize (IHs x Hx).
    by destruct (resizeDeliver t subs x). }
  specialize (H (resizeSubs s) s Hd).
  by destruct (resizeDeliver t (resizeSubs s) s).
Qed.

(** C9, counterexample: the resize stream has a
    [throttleTime(200)] of its own in front of [update()].  Of two resize
    events 100ms apart the second never calls [update()], where a direct call
    would push a pulse; and after an explicit pulse at 1100ms, a resize at
    1250ms arms the resize throttle (its pulse is dropped downstream), so the
    resize at 1350ms causes no re-check, where an [update()] call at 1350ms
    would. *)
Lemma C9_resize_throttled_before_update :
  (updateEmissions (resizes [1000; 1100] (live overflowing)) = [1000] /\
   updateEmissions (updates [1000; 1100] (live overflowing)) = [1000; 1100] /\
   updateEmissions (onWindowResize 1100 (onWindowResize 1000 (live overflowing))) <>
   updateEmissions (update 1100 (onWindowResize 1000 (live overflowing)))) /\
  (markForCheckLog (resizes [1250; 1350] (update 1100 (live overflowing)))
     = [0; 1100] /\
   markForCheckLog (updates [1250; 1350] (update 1100 (live overflowing)))
     = [0; 1100; 1350]).
Proof. vm_compute. repeat split; discriminate. Qed.

(** C9, amended: a window resize event reaches [update()] only through the
    resize stream's own 200ms throttle.  An event that finds that throttle
    open calls [update()], and from there takes the path of every other
    pulse (there is no separate path to the re-check); an event inside the
    window is dropped without calling [update()]; without a resize
    subscription nothing happens.  Resize events cause the same re-checks as
    [update()] calls at the same times only over an uninterrupted run of
    resize events that starts with the resize throttle and the update
    throttle in the same state. *)
Theorem C9_resize_through_own_throttle (s : NgScrollbar) (now : Z) :
  (forall th, resizeSubs s = [th] -> throttleOpen now th = true ->
     onWindowResize now s =
       set_resizeSubs [Some (now + THROTTLE_WINDOW)] (update now s) /\
     updateEmissions (onWindowResize now s) = updateEmissions (update now s) /\
     markForCheckLog (onWindowResize now s) = markForCheckLog (update now s)) /\
  (forall th, resizeSubs s = [th] -> throttleOpen now th = false ->
     onWindowResize now s = s) /\
  (resizeSubs s = [] -> onWindowResize now s = s) /\
  (forall th ts, resizeSubs s = [th] -> updateSubs s = [th] ->
     markForCheckLog (resizes ts s) = markForCheckLog (updates ts s)).
Proof.
  split; [|split; [|split]].
  - intros th Hr Ho. rewrite (onWindowResize_single now th s Hr), Ho. done.
  - intros th Hr Ho. by rewrite (onWindowResize_single now th s Hr), Ho.
  - intros Hr. unfold onWindowResize. rewrite Hr. cbn.
    rewrite <- Hr. apply set_resizeSubs_same.
  - intros th ts Hr Hu. destruct (disabled s) eqn:Hd.
    + by rewrite (resizes_disabled ts s Hd), (updates_disabled ts s Hd).
    + apply resizes_inStep; [|done]. split; [done|]. split; [done|]. by exists th.
Qed.

Lemma C9_resize_through_own_throttle_witness :
  onWindowResize 1100 (onWindowResize 1000 (live overflowing)) =
    onWindowResize 1000 (live overflowing) /\
  updateEmissions (onWindowResize 1000 (live overflowing)) =
    updateEmissions (update 1000 (live overflowing)).
Proof.
  split.
  - apply (proj1 (proj2 (C9_resize_through_own_throttle
                           (onWindowResize 1000 (live overflowing)) 1100))
             (Some 1200)); vm_compute; reflexivity.
  - apply (proj1 (C9_resize_through_own_throttle (live overflowing) 1000) None);
      vm_compute; reflexivity.
Defined.

(** ** Layout of the native scrollbars *)

(** X1: [hideNativeScrollbars] widens the viewport by the native scrollbar
    size on an axis exactly when the component is enabled and the crossing
    track is on: the width follows [trackY], the height follows [trackX];
    otherwise the size is 100%. *)
Theorem hideNativeScrollbars_pushes_iff (s : NgScrollbar) :
  (width (hideNativeScrollbars s) = "calc(100% + 18px)" <->
     disabled s = false /\ trackY s = true) /\
  (height (hideNativeScrollbars s) = "calc(100% + 18px)" <->
     disabled s = false /\ trackX s = true) /\
  (width (hideNativeScrollbars s) <> "calc(100% + 18px)" ->
     width (hideNativeScrollbars s) = "100%") /\
  (height (hideNativeScrollbars s) <> "calc(100% + 18px)" ->
     height (hideNativeScrollbars s) = "100%").
Proof.
  unfold hideNativeScrollbars.
  destruct (disabled s), (trackX s), (trackY s); vm_compute;
    (split; [|split; [|split]]);
    try (split; [intros ?; try discriminate; by split | intros [? ?]; done]);
    try (intros H; done).
Qed.

(** X2: the [view] getter and the [scrollable] getter designate the same
    viewport: [view] is the native element of [scrollable], and it faults
    exactly when [scrollable] is undefined. *)
Theorem view_is_element_of_scrollable (s : NgScrollbar) :
  (forall sc, scrollable s = Some sc ->
     view s = Ok (nativeElement (getElementRef sc))) /\
  (scrollable s = None <-> isOk (view s) = false).
Proof.
  unfold scrollable, view.
  destruct (customViewPort s) as [cv|]; [|destruct (scrollViewport s) as [sv|]].
  - split; [by intros sc [= <-] | done].
  - split; [by intros sc [= <-] | done].
  - split; [done | done].
Qed.

Lemma view_is_element_of_scrollable_witness :
  view (mountedCustom fitting) = Ok (Some fitting).
Proof.
  apply (proj1 (view_is_element_of_scrollable (mountedCustom fitting))
           (scrollableOf (Some fitting))).
  reflexivity.
Defined.

(** ** Idempotence of [disable] and of teardown *)

(** X3: [disable()] is idempotent: a second call changes nothing. *)
Theorem disable_idempotent (s : NgScrollbar) :
  disable (disable s) = disable s.
Proof.
  unfold disable. cbn. destruct (_observer s) as [i|] eqn:Ho; cbn; rewrite ?Ho.
  - unfold disconnect. cbn. rewrite list_insert_insert_eq. reflexivity.
  - reflexivity.
Qed.

(** X4: [ngOnDestroy()] is idempotent, and it leaves [disabled] as it
    was: teardown releases the subscriptions and detaches the held observer
    but does not disable the component. *)
Theorem ngOnDestroy_idempotent (s : NgScrollbar) :
  ngOnDestroy (ngOnDestroy s) = ngOnDestroy s /\
  disabled (ngOnDestroy s) = disabled s /\
  _unsubscribeStopped (ngOnDestroy s) = true.
Proof.
  unfold ngOnDestroy.
  destruct (_unsubscribeStopped s) eqn:Hs; cbn;
    destruct (_observer s) as [i|] eqn:Ho; cbn; rewrite ?Ho, ?Hs; cbn;
    rewrite ?Ho; unfold disconnect; cbn; rewrite ?list_insert_insert_eq; done.
Qed.

Lemma hideNativeScrollbars_pushes_iff_witness :
  width (hideNativeScrollbars (mounted fitting)) = "calc(100% + 18px)" /\
  height (hideNativeScrollbars (mounted fitting)) = "100%".
Proof.
  split.
  - apply (proj1 (hideNativeScrollbars_pushes_iff (mounted fitting))).
    split; reflexivity.
  - apply (proj2 (proj2 (proj2 (hideNativeScrollbars_pushes_iff (mounted fitting))))).
    vm_compute. discriminate.
Defined.

(** ** Pulses and re-checks *)

Lemma updateObserver_next_disabled (now : Z) (s : NgScrollbar) :
  disabled (updateObserver_next now s) = disabled s.
Proof. reflexivity. Qed.

(** X5: the public update stream is not throttled: while the component is
    enabled every [update()] call is pushed into it, in order, whatever
    subscriptions exist. *)
Theorem updates_all_emitted (ts : list Z) (s : NgScrollbar) :
  disabled s = false ->
  updateEmissions (updates ts s) = updateEmissions s ++ ts /\
  disabled (updates ts s) = false.
Proof.
  revert s. induction ts as [|t ts IH]; intros s Hd.
  - cbn. by rewrite app_nil_r.
  - change (updates (t :: ts) s) with (updates ts (update t s)).
    rewrite (update_enabled t s Hd).
    destruct (IH (updateObserver_next t s) Hd) as [-> ->].
    cbn. by rewrite <- app_assoc.
Qed.

Lemma updates_all_emitted_witness :
  updateEmissions (updates burst10 (mounted fitting)) = burst10.
Proof.
  apply (proj1 (updates_all_emitted burst10 (mounted fitting) eq_refl)).
Defined.

(** X6: the re-checks caused by [update()] calls are throttled: with one
    subscription to the update stream, the re-checks a run of calls adds are
    taken from the calls' times in order, any two consecutive ones are at
    least 200ms apart, and none is earlier than the time a running throttle
    ends. *)
Theorem updates_rechecks_spaced (ts : list Z) (s : NgScrollbar) (th : Throttle) :
  disabled s = false ->
  updateSubs s = [th] ->
  exists out,
    markForCheckLog (updates ts s) = markForCheckLog s ++ out /\
    out `sublist_of` ts /\
    spaced out /\
    (forall u, th = Some u -> Forall (fun t => u <= t) out).
Proof.
  revert s th. induction ts as [|t ts IH]; intros s th Hd Hs.
  - exists []. cbn. rewrite app_nil_r. repeat split; by constructor.
  - change (updates (t :: ts) s) with (updates ts (update t s)).
    rewrite (update_enabled t s Hd), (updateObserver_next_single t th s Hs).
    destruct (throttleOpen t th) eqn:Ho; cbv iota.
    + edestruct (IH (set_streams (updateEmissions s ++ [t])
                       (markForCheckLog s ++ [t])
                       [Some (t + THROTTLE_WINDOW)] s)
                    (Some (t + THROTTLE_WINDOW)) Hd eq_refl)
        as (out & Hm & Hsub & Hsp & Hge).
      exists (t :: out). rewrite Hm. cbn. rewrite <- app_assoc.
      split; [done|]. split; [by apply sublist_skip|].
      specialize (Hge _ eq_refl). split.
      * destruct out as [|b out']; [done|]. split; [|done].
        by inversion Hge.
      * intros u ->. cbn in Ho. apply bool_decide_eq_true in Ho.
        constructor; [done|].
        eapply Forall_impl; [|exact Hge].
        cbn. unfold THROTTLE_WINDOW. intros b Hb. lia.
    + edestruct (IH (set_streams (updateEmissions s ++ [t]) (markForCheckLog s)
                       [th] s) th Hd eq_refl)
        as (out & Hm & Hsub & Hsp & Hge).
      exists out.
      split; [exact Hm|]. split; [by apply sublist_cons|]. split; done.
Qed.

Lemma updates_rechecks_spaced_witness :
  exists out,
    markForCheckLog (updates [1000; 1100; 1200; 1250; 1400] (live overflowing)) =
      markForCheckLog (live overflowing) ++ out /\
    spaced out.
Proof.
  destruct (updates_rechecks_spaced [1000; 1100; 1200; 1250; 1400]
              (live overflowing) None) as (out & H1 & _ & H2 & _).
  - vm_compute; reflexivity.
  - vm_compute; reflexivity.
  - exists out. split; [exact H1 | exact H2].
Defined.

(** X7: no pulse is lost to the throttle when the calls are themselves at
    least 200ms apart and the first one finds the throttle open: each
    [update()] call then causes its own re-check. *)
Theorem updates_spaced_all_recheck (ts : list Z) (s : NgScrollbar) (th : Throttle) :
  disabled s = false ->
  updateSubs s = [th] ->
  spaced ts ->
  (forall t0, head ts = Some t0 -> throttleOpen t0 th = true) ->
  markForCheckLog (updates ts s) = markForCheckLog s ++ ts.
Proof.
  revert s th. induction ts as [|t ts IH]; intros s th Hd Hs Hsp Hopen.
  - cbn. by rewrite app_nil_r.
  - change (updates (t :: ts) s) with (updates ts (update t s)).
    rewrite (update_enabled t s Hd), (updateObserver_next_single t th s Hs).
    rewrite (Hopen t eq_refl). cbv iota.
    rewrite (IH (set_streams (updateEmissions s ++ [t]) (markForCheckLog s ++ [t])
                   [Some (t + THROTTLE_WINDOW)] s)
                (Some (t + THROTTLE_WINDOW)) Hd eq_refl).
    + cbn. by rewrite <- app_assoc.
    + destruct ts as [|b ts']; [done|]. apply Hsp.
    + intros t0 Ht0. destruct ts as [|b ts']; [done|].
      injection Ht0 as ->. destruct Hsp as [Hb _].
      cbn. by apply bool_decide_eq_true.
Qed.

Lemma updates_spaced_all_recheck_witness :
  markForCheckLog (updates [1000; 1200; 1500] (live overflowing)) =
    markForCheckLog (live overflowing) ++ [1000; 1200; 1500].
Proof.
  apply (updates_spaced_all_recheck [1000; 1200; 1500] (live overflowing) None).
  - vm_compute; reflexivity.
  - vm_compute; reflexivity.
  - unfold spaced, THROTTLE_WINDOW. lia.
  - intros t0 _. reflexivity.
Defined.

(** ** The held observer is quiet while the component is disabled *)

Lemma heldObserverQuiet_same (s s' : NgScrollbar) :
  heap s' = heap s -> disabled s' = disabled s ->
  heldObserverQuiet s -> heldObserverQuiet s'.
Proof.
  intros [= Ho Hr] Hd H i Hi. rewrite Hr in Hi.
  destruct (H i Hi) as (ob & Hl & Hq). exists ob. by rewrite Ho, Hd.
Qed.

Lemma heldObserverQuiet_detach (s s' : NgScrollbar) :
  _observer s' = _observer s ->
  observers s' =
    match _observer s with
    | Some i => <[i := detached]> (observers s)
    | None => observers s
    end ->
  heldObserverQuiet s -> heldObserverQuiet s'.
Proof.
  intros Hr Ho H i Hi. rewrite Hr in Hi.
  destruct (H i Hi) as (ob & Hl & _). rewrite Ho, Hi.
  exists detached. split; [|done].
  apply list_lookup_insert_eq. by apply lookup_lt_Some in Hl.
Qed.

Lemma heldObserverQuiet_enable (now : Z) (s s' : NgScrollbar) :
  heldObserverQuiet s -> enable now s = Ok s' -> heldObserverQuiet s'.
Proof.
  intros H He. destruct (view s) as [[el|]|e] eqn:Hv.
  - rewrite (enable_eval now s el Hv) in He. injection He as <-.
    cbv zeta. destruct (observesContent s); intros i Hi; cbn in *.
    + injection Hi as <-. exists (attached el). split; [|done].
      rewrite lookup_app_r; [|lia]. by rewrite Nat.sub_diag.
    + destruct (H i Hi) as (ob & Hl & _). by exists ob.
  - rewrite (enable_null_element now s Hv) in He. by injection He as <-.
  - by rewrite (enable_unresolved now s e Hv) in He.
Qed.

Lemma heldObserverQuiet_run (h : list (Z * Event)) (s : NgScrollbar) :
  heldObserverQuiet s -> heldObserverQuiet (run h s).
Proof.
  apply (preserved_run heldObserverQuiet True True); try (by right).
  - intros now x x' Hx He. by apply (heldObserverQuiet_enable now x).
  - intros _ x Hx. destruct (disable_frame x) as (_ & Hr & _ & Ho).
    by apply (heldObserverQuiet_detach x).
  - intros x Hx. destruct (ngOnDestroy_frame x) as (_ & Hr & _ & Ho).
    by apply (heldObserverQuiet_detach x).
  - intros now x Hx. destruct (update_frame now x) as (_ & Hh & Hd & _).
    by apply (heldObserverQuiet_same x).
  - intros stopped bp us rs pend x Hx. by apply (heldObserverQuiet_same x).
  - intros _ sw sh cw ch x Hx. apply (heldObserverQuiet_same x); [| |done];
      unfold onLayout; by destruct (customViewPort x).
Qed.

(** X8: along every history the reference [_observer] stays inside the
    heap of observers, and whenever [disabled] is true the observer it points
    at is disconnected; in particular this holds from construction on, and a
    mutation delivered to the held observer of a disabled component does
    nothing. *)
Theorem run_keeps_held_observer_quiet (h : list (Z * Event)) (s : NgScrollbar) :
  heldObserverQuiet s ->
  heldObserverQuiet (run h s) /\
  (forall i t, _observer (run h s) = Some i -> disabled (run h s) = true ->
     observers (run h s) !! i = Some detached /\
     onMutation t i (run h s) = run h s).
Proof.
  intros H. pose proof (heldObserverQuiet_run h s H) as Hq.
  split; [done|]. intros i t Hi Hd.
  destruct (Hq i Hi) as (ob & Hl & Hdet). rewrite (Hdet Hd) in Hl.
  split; [done|]. unfold onMutation. by rewrite Hl.
Qed.

Lemma run_keeps_held_observer_quiet_witness :
  heldObserverQuiet (run startup (mounted overflowing)).
Proof.
  apply (run_keeps_held_observer_quiet startup (mounted overflowing)).
  intros i Hi. discriminate Hi.
Defined.

(** ** What start-up subscribes to *)

Lemma enable_static (now : Z) (s s' : NgScrollbar) :
  enable now s = Ok s' ->
  streams s' = streams s /\ configuration s' = configuration s.
Proof.
  intros He. destruct (view s) as [[el|]|e] eqn:Hv.
  - rewrite (enable_eval now s el Hv) in He. injection He as <-.
    by destruct (observesContent s).
  - rewrite (enable_null_element now s Hv) in He. by injection He as <-.
  - by rewrite (enable_unresolved now s e Hv) in He.
Qed.

(** X9: whenever the start-up body queued by [ngAfterViewInit] completes,
    it has added exactly one subscription to the update stream, with its
    throttle open, and one to the window resize stream on the browser
    platform only; this does not depend on [disabled] or on the breakpoint
    list. *)
Theorem startup_subscribes_streams (now : Z) (s s' : NgScrollbar) :
  afterViewInitBody now s = Ok s' ->
  updateSubs s' = updateSubs s ++ [None] /\
  resizeSubs s' =
    resizeSubs s ++ (if isPlatformBrowser (_platform s) then [None] else []).
Proof.
  unfold afterViewInitBody.
  assert (Hfin : forall s1,
    streams s1 = streams s -> configuration s1 = configuration s ->
    (if isPlatformBrowser (_platform s1)
     then Ok (set_subs (_unsubscribeStopped s1) (breakpointSubs s1)
                (updateSubs s1 ++ [None]) (resizeSubs s1 ++ [None])
                (pendingInit s1) s1)
     else Ok (set_subs (_unsubscribeStopped s1) (breakpointSubs s1)
                (updateSubs s1 ++ [None]) (resizeSubs s1) (pendingInit s1) s1))
    = Ok s' ->
    updateSubs s' = updateSubs s ++ [None] /\
    resizeSubs s' =
      resizeSubs s ++ (if isPlatformBrowser (_platform s) then [None] else [])).
  { intros s1 [= Hu Hr] [= _ _ _ _ _ _ Hp]. rewrite <- Hp, <- Hu, <- Hr.
    destruct (isPlatformBrowser (_platform s1)); intros [= <-]; cbn;
      [done | by rewrite app_nil_r]. }
  destruct (disabled s); cbn -[enable].
  - exact (Hfin s eq_refl eq_refl).
  - destruct (disableOnBreakpoints s); cbn -[enable].
    + exact (Hfin (set_subs (_unsubscribeStopped s) (S (breakpointSubs s))
                     (updateSubs s) (resizeSubs s) (pendingInit s) s)
                  eq_refl eq_refl).
    + destruct (enable now s) as [s1|e] eqn:He; cbn -[enable]; [|done].
      apply enable_static in He as [Hs Hc]. exact (Hfin s1 Hs Hc).
Qed.

Lemma startup_subscribes_streams_witness :
  updateSubs (set_subs false 1%nat [None] [None] 0%nat (mounted fitting)) =
    updateSubs (mounted fitting) ++ [None].
Proof.
  apply (startup_subscribes_streams 0 (mounted fitting)).
  vm_compute. reflexivity.
Defined.

(** X10: when no breakpoint list is configured and the component is not
    disabled, the start-up body calls [enable()] itself; if the viewport is
    not resolved at that moment the fault of [enable()] ends the body, so
    neither the update stream nor the resize stream is subscribed. *)
Theorem startup_without_breakpoints (now : Z) (s : NgScrollbar) :
  disabled s = false ->
  disableOnBreakpoints s = None ->
  (forall e, view s = Throw e -> afterViewInitBody now s = Throw e) /\
  (forall el, view s = Ok (Some el) ->
     exists s1 s',
       enable now s = Ok s1 /\ afterViewInitBody now s = Ok s' /\
       disabled s' = false /\ heap s' = heap s1 /\
       breakpointSubs s' = breakpointSubs s /\
       markForCheckLog s' = markForCheckLog s ++ [now]).
Proof.
  intros Hd Hb. unfold afterViewInitBody. rewrite Hd, Hb. cbn -[enable]. split.
  - intros e Hv. by rewrite (enable_unresolved now s e Hv).
  - intros el Hv. rewrite (enable_eval now s el Hv). cbv zeta.
    destruct (observesContent s); cbn;
      destruct (isPlatformBrowser (_platform s));
      eexists; eexists; (split; [reflexivity|]); (split; [reflexivity|]); done.
Qed.

Lemma startup_without_breakpoints_witness :
  afterViewInitBody 0
    (with_inputs false true native true None (new_NgScrollbar PlatformBrowser)) =
  Throw (TypeError "Cannot read property 'getElementRef' of undefined").
Proof.
  apply (proj1 (startup_without_breakpoints 0
           (with_inputs false true native true None (new_NgScrollbar PlatformBrowser))
           eq_refl eq_refl)).
  reflexivity.
Defined.

(** ** After teardown *)






(** X12: a start-up body that runs after teardown (the component was
    destroyed before its queued microtask ran) subscribes all the same, and
    since [_unsubscribe$] has already completed a further [ngOnDestroy()]
    releases none of these subscriptions. *)
Theorem late_startup_outlives_teardown (now : Z) (s : NgScrollbar)
    (qs : list Breakpoint) (n : nat) :
  pendingInit s = S n ->
  disabled s = false ->
  disableOnBreakpoints s = Some qs ->
  exists s',
    runMicrotask now (ngOnDestroy s) = Ok s' /\
    breakpointSubs (ngOnDestroy s') = S (breakpointSubs (ngOnDestroy s)) /\
    updateSubs (ngOnDestroy s') = updateSubs (ngOnDestroy s) ++ [None] /\
    resizeSubs (ngOnDestroy s') =
      resizeSubs (ngOnDestroy s) ++
      (if isPlatformBrowser (_platform s) then [None] else []).
Proof.
  intros Hp Hd Hb.
  assert (Hdes : forall x, _unsubscribeStopped x = true ->
            breakpointSubs (ngOnDestroy x) = breakpointSubs x /\
            updateSubs (ngOnDestroy x) = updateSubs x /\
            resizeSubs (ngOnDestroy x) = resizeSubs x).
  { intros x Hx. unfold ngOnDestroy. rewrite Hx. by destruct (_observer x). }
  set (d := ngOnDestroy s).
  assert (Hd' : pendingInit d = S n /\ disabled d = false /\
                disableOnBreakpoints d = Some qs /\
                _unsubscribeStopped d = true /\ _platform d = _platform s).
  { subst d. unfold ngOnDestroy.
    destruct (_unsubscribeStopped s) eqn:Hs; cbn;
      destruct (_observer s) eqn:Ho; cbn; rewrite ?Ho, ?Hs; cbn;
      repeat split; assumption || reflexivity. }
  destruct Hd' as (Hp' & Hdd & Hbd & Hsd & Hpl).
  unfold runMicrotask, afterViewInitBody. rewrite Hp'. cbn. rewrite Hdd, Hbd. cbn.
  rewrite Hpl.
  destruct (isPlatformBrowser (_platform s)); eexists; (split; [reflexivity|]);
    match goal with
    | |- context [ngOnDestroy ?x] =>
        destruct (Hdes x) as (-> & -> & ->); [exact Hsd|]
    end; cbn; rewrite ?app_nil_r; done.
Qed.

Lemma late_startup_outlives_teardown_witness :
  exists s',
    runMicrotask 5 (ngOnDestroy (ngAfterViewInit (mounted fitting))) = Ok s' /\
    breakpointSubs (ngOnDestroy s') = 1%nat.
Proof.
  destruct (late_startup_outlives_teardown 5 (ngAfterViewInit (mounted fitting))
              [HandsetLandscape; HandsetPortrait] 0 eq_refl eq_refl eq_refl)
    as (s' & H1 & H2 & _).
  exists s'. split; [exact H1 | exact H2].
Defined.

(** ** What no history changes *)

Lemma update_configuration (now : Z) (s : NgScrollbar) :
  configuration (update now s) = configuration s.
Proof. unfold update. by destruct (disabled s). Qed.

Lemma disable_configuration (s : NgScrollbar) :
  configuration (disable s) = configuration s.
Proof. unfold disable. cbn. by destruct (_observer s). Qed.

Lemma ngOnDestroy_configuration (s : NgScrollbar) :
  configuration (ngOnDestroy s) = configuration s.
Proof.
  unfold ngOnDestroy.
  destruct (_unsubscribeStopped s); cbn; by destruct (_observer s).
Qed.

Lemma onLayout_configuration (sw sh cw ch : Z) (s : NgScrollbar) :
  configuration (onLayout sw sh cw ch s) = configuration s.
Proof. unfold onLayout. by destruct (customViewPort s). Qed.

Lemma run_configuration (h : list (Z * Event)) (s : NgScrollbar) :
  configuration (run h s) = configuration s.
Proof.
  apply (preserved_run (fun x => configuration x = configuration s) True True);
    try (by right); try done.
  - intros now x x' Hx He. apply enable_static in He as [_ ->]. exact Hx.
  - intros _ x Hx. by rewrite disable_configuration.
  - intros x Hx. by rewrite ngOnDestroy_configuration.
  - intros now x Hx. by rewrite update_configuration.
  - intros _ sw sh cw ch x Hx. by rewrite onLayout_configuration.
Qed.

Lemma run_children (h : list (Z * Event)) (s : NgScrollbar) :
  Forall (fun te => noLayout (snd te)) h ->
  children (run h s) = children s.
Proof.
  intros Hh.
  apply (preserved_run (fun x => children x = children s) False True);
    try (by right); try (by left); try done.
  - intros now x x' Hx He. apply enable_inv in He as (-> & _). exact Hx.
  - intros _ x Hx. destruct (disable_frame x) as (-> & _). exact Hx.
  - intros x Hx. destruct (ngOnDestroy_frame x) as (-> & _). exact Hx.
  - intros now x Hx. destruct (update_frame now x) as (-> & _). exact Hx.
Qed.

Lemma run_app (h1 h2 : list (Z * Event)) (s : NgScrollbar) :
  run (h1 ++ h2) s = run h2 (run h1 s).
Proof.
  revert s. induction h1 as [|[now e] h1 IH]; intros s; [done|]. apply IH.
Qed.

(** X13: the component never changes what its visibility getters read, and
    the getters memoise nothing.  Along every history the inputs and the
    platform are unchanged and the viewport stays the same node; over a
    history without a new layout of the viewport, [view], [showScrollbarX]
    and [showScrollbarY] answer what they answered before it; and right after
    a new layout, whatever the history before it, the getters answer on the
    new sizes. *)
Theorem run_keeps_getters (h : list (Z * Event)) (s : NgScrollbar) :
  configuration (run h s) = configuration s /\
  viewNode (run h s) = viewNode s /\
  (Forall (fun te => noLayout (snd te)) h ->
     view (run h s) = view s /\
     showScrollbarX (run h s) = showScrollbarX s /\
     showScrollbarY (run h s) = showScrollbarY s) /\
  (forall el sw sh cw ch t, view s = Ok (Some el) ->
     showScrollbarX (run (h ++ [(t, EvLayout sw sh cw ch)]) s) =
       Ok (if decide (shown s = always) then true else bool_decide (sw > cw)) /\
     showScrollbarY (run (h ++ [(t, EvLayout sw sh cw ch)]) s) =
       Ok (if decide (shown s = always) then true else bool_decide (sh > ch))).
Proof.
  pose proof (run_configuration h s) as Hc.
  pose proof (run_viewNode h s) as Hn.
  split; [done|]. split; [done|]. split.
  - intros Hh. pose proof (run_children h s Hh) as Hch.
    pose proof (view_children s _ Hch) as Hv. split; [done|].
    injection Hc as _ _ Hsh _ _ _ _.
    unfold showScrollbarX, showScrollbarY. by rewrite Hsh, Hv.
  - intros el sw sh cw ch t Hv. rewrite run_app. cbn [run step].
    assert (Hel : exists el', view (run h s) = Ok (Some el')).
    { unfold viewNode in Hn. rewrite Hv in Hn.
      destruct (view (run h s)) as [[el'|]|]; try done. by exists el'. }
    destruct Hel as [el' Hv'].
    assert (Hvl : view (onLayout sw sh cw ch (run h s)) =
                  Ok (Some (relaid sw sh cw ch el'))).
    { by rewrite view_onLayout, Hv'. }
    assert (Hsh : shown (onLayout sw sh cw ch (run h s)) = shown s).
    { pose proof (onLayout_configuration sw sh cw ch (run h s)) as Hcl.
      rewrite Hc in Hcl. by injection Hcl as _ _ Hsh _ _ _ _. }
    rewrite (showScrollbarX_eval _ _ Hvl), (showScrollbarY_eval _ _ Hvl), Hsh.
    done.
Qed.

Lemma run_keeps_getters_witness :
  showScrollbarY (run (startup ++ [(50, EvLayout 2000 2000 500 500)])
                    (with_inputs false true hover true None (mounted fitting))) =
    Ok true.
Proof.
  apply (proj2 (proj2 (proj2 (run_keeps_getters startup
           (with_inputs false true hover true None (mounted fitting)))))
           fitting 2000 2000 500 500 50 eq_refl).
Defined.

(** ** Cycles of [disable] and [enable] *)

(** X14: [enable()] after [disable()] does not leak: when the viewport
    element exists and content is observed, the observer held before is
    disconnected by [disable()] and [enable()] creates and holds a fresh one
    attached to the viewport; nothing else on the heap changes and [disabled]
    ends false. *)
Theorem disable_then_enable (now : Z) (s : NgScrollbar) (el : HTMLElement) (i : nat) :
  view s = Ok (Some el) ->
  observesContent s = true ->
  _observer s = Some i ->
  (i < length (observers s))%nat ->
  exists s',
    enable now (disable s) = Ok s' /\
    disabled s' = false /\
    _observer s' = Some (length (observers s)) /\
    observers s' = <[i := detached]> (observers s) ++ [attached el] /\
    observers s' !! i = Some detached /\
    (forall j, j <> i -> (j < length (observers s))%nat ->
       observers s' !! j = observers s !! j).
Proof.
  intros Hv Hoc Ho Hi.
  destruct (disable_frame s) as (Hch & Hr & _ & Hobs). rewrite Ho in Hobs.
  assert (Hv' : view (disable s) = Ok (Some el)) by (by rewrite (view_children s)).
  assert (Hoc' : observesContent (disable s) = true).
  { unfold observesContent in *. injection Hch as -> _.
    unfold disable. cbn. by destruct (_observer s). }
  rewrite (enable_eval now (disable s) el Hv'). cbv zeta. rewrite Hoc'.
  eexists. split; [reflexivity|]. cbn -[disable]. rewrite Hobs, length_insert.
  split; [done|]. split; [done|]. split; [done|]. split.
  - rewrite lookup_app_l by (by rewrite length_insert).
    by apply list_lookup_insert_eq.
  - intros j Hj Hlt. rewrite lookup_app_l by (by rewrite length_insert).
    by apply list_lookup_insert_ne.
Qed.

Lemma disable_then_enable_witness :
  exists s',
    enable 20 (disable (live overflowing)) = Ok s' /\
    observers s' = [detached; attached overflowing].
Proof.
  destruct (disable_then_enable 20 (live overflowing) overflowing 0)
    as (s' & H1 & _ & _ & H2 & _).
  - vm_compute; reflexivity.
  - vm_compute; reflexivity.
  - vm_compute; reflexivity.
  - vm_compute. lia.
  - exists s'. split; [exact H1 | exact H2].
Defined.

(** ** Resize events while disabled *)

(** X15: a window resize event that arrives while the component is
    disabled still arms the throttle of the resize stream although its
    [update()] does nothing; so after [enable()], a resize event within 200ms
    of the swallowed one is dropped and causes neither a pulse nor a
    re-check. *)
Theorem resize_while_disabled_arms_throttle (t : Z) (s : NgScrollbar) (th : Throttle) :
  resizeSubs s = [th] ->
  throttleOpen t th = true ->
  disabled s = true ->
  onWindowResize t s = set_resizeSubs [Some (t + THROTTLE_WINDOW)] s /\
  (forall el t1 t2, view s = Ok (Some el) -> t2 < t + THROTTLE_WINDOW ->
     exists s1,
       enable t1 (onWindowResize t s) = Ok s1 /\ disabled s1 = false /\
       onWindowResize t2 s1 = s1).
Proof.
  intros Hr Ho Hd.
  assert (Hres : onWindowResize t s = set_resizeSubs [Some (t + THROTTLE_WINDOW)] s).
  { by rewrite (onWindowResize_single t th s Hr), Ho, (update_disabled t s Hd). }
  split; [exact Hres|]. intros el t1 t2 Hv Ht2. rewrite Hres.
  assert (Hv' : view (set_resizeSubs [Some (t + THROTTLE_WINDOW)] s) = Ok (Some el))
    by exact Hv.
  destruct (enable t1 (set_resizeSubs [Some (t + THROTTLE_WINDOW)] s))
    as [s1|e] eqn:He.
  - exists s1. split; [done|].
    pose proof (enable_static _ _ _ He) as [[= _ Hrs] _].
    rewrite (enable_eval _ _ el Hv') in He. injection He as Hs1.
    split.
    + rewrite <- Hs1. cbv zeta.
      by destruct (observesContent (set_resizeSubs [Some (t + THROTTLE_WINDOW)] s)).
    + rewrite (onWindowResize_single t2 (Some (t + THROTTLE_WINDOW)) s1 Hrs).
      assert (Hc : throttleOpen t2 (Some (t + THROTTLE_WINDOW)) = false).
      { cbn. apply bool_decide_eq_false. lia. }
      by rewrite Hc.
  - by rewrite (enable_eval _ _ el Hv') in He.
Qed.

Lemma resize_while_disabled_arms_throttle_witness :
  onWindowResize 1000 (disable (live overflowing)) =
    set_resizeSubs [Some (1000 + THROTTLE_WINDOW)] (disable (live overflowing)).
Proof.
  apply (proj1 (resize_while_disabled_arms_throttle 1000
                  (disable (live overflowing)) None eq_refl eq_refl eq_refl)).
Defined.

(** ** The [disabled] input *)

(** X16: the [disabled] input setter.  Setting it to true always succeeds
    and leaves [disabled] true; setting it to false clears [disabled] when the
    viewport element exists, is ignored (the state is untouched, [disabled]
    may stay true) when the viewport has no native element, and faults when
    the viewport is unresolved. *)
Theorem setDisabled_applies (now : Z) (s : NgScrollbar) :
  (exists s', setDisabled now true s = Ok s' /\ disabled s' = true) /\
  (forall el, view s = Ok (Some el) ->
     exists s', setDisabled now false s = Ok s' /\ disabled s' = false) /\
  (view s = Ok None -> setDisabled now false s = Ok s) /\
  (forall e, view s = Throw e -> setDisabled now false s = Throw e).
Proof.
  split; [|split; [|split]].
  - exists (disable s). split; [done | apply disabled_disable].
  - intros el Hv. cbn -[enable]. rewrite (enable_eval now s el Hv). cbv zeta.
    eexists. split; [reflexivity|]. by destruct (observesContent s).
  - intros Hv. cbn -[enable]. by apply enable_null_element.
  - intros e Hv. cbn -[enable]. by apply enable_unresolved.
Qed.

Lemma setDisabled_applies_witness :
  setDisabled 3 false
    (with_scrollViewport (scrollableOf None) (disable (new_NgScrollbar PlatformBrowser)))
  = Ok (with_scrollViewport (scrollableOf None)
          (disable (new_NgScrollbar PlatformBrowser))).
Proof.
  apply (proj1 (proj2 (proj2 (setDisabled_applies 3
           (with_scrollViewport (scrollableOf None)
              (disable (new_NgScrollbar PlatformBrowser))))))).
  reflexivity.
Defined.

(** ** Components that do not observe their content *)

Lemma observesContent_static (s s' : NgScrollbar) :
  configuration s' = configuration s -> children s' = children s ->
  observesContent s' = observesContent s.
Proof.
  intros [= _ _ _ Ha _ _ Hp] [= Hc _]. unfold observesContent.
  by rewrite Ha, Hp, Hc.
Qed.

Lemma enable_not_observing (now : Z) (s s' : NgScrollbar) :
  observesContent s = false -> enable now s = Ok s' -> heap s' = heap s.
Proof.
  intros Hoc He. destruct (view s) as [[el|]|e] eqn:Hv.
  - rewrite (enable_eval now s el Hv) in He. cbv zeta in He. rewrite Hoc in He.
    by injection He as <-.
  - rewrite (enable_null_element now s Hv) in He. by injection He as <-.
  - by rewrite (enable_unresolved now s e Hv) in He.
Qed.

Lemma detach_keeps_length (s s' : NgScrollbar) :
  observers s' =
    match _observer s with
    | Some i => <[i := detached]> (observers s)
    | None => observers s
    end ->
  length (observers s') = length (observers s).
Proof. intros ->. destruct (_observer s); [apply length_insert | done]. Qed.

Lemma onLayout_observesContent (sw sh cw ch : Z) (s : NgScrollbar) :
  observesContent (onLayout sw sh cw ch s) = observesContent s /\
  heap (onLayout sw sh cw ch s) = heap s.
Proof. unfold onLayout, observesContent. by destruct (customViewPort s). Qed.

(** X17: a component that does not observe its content (a custom viewport
    is supplied, or auto-update is off, or the platform is not a browser)
    never creates a mutation observer: along every history the heap of
    observers keeps its size and [_observer] keeps its value; from
    construction on, the heap stays empty and no observer is ever held. *)
Theorem run_not_observing (h : list (Z * Event)) (s : NgScrollbar) :
  observesContent s = false ->
  length (observers (run h s)) = length (observers s) /\
  _observer (run h s) = _observer s /\
  (observers s = [] -> observers (run h s) = []).
Proof.
  intros Hoc.
  assert (H : observesContent (run h s) = false /\
              length (observers (run h s)) = length (observers s) /\
              _observer (run h s) = _observer s).
  { apply (preserved_run (fun x =>
             observesContent x = false /\
             length (observers x) = length (observers s) /\
             _observer x = _observer s) True True); try (by right); try done.
    - intros now x x' (Hx1 & Hx2 & Hx3) He.
      pose proof (enable_not_observing now x x' Hx1 He) as [= Ho Hr].
      pose proof (enable_static now x x' He) as [_ Hc].
      pose proof (enable_inv now x x' He) as (Hch & _).
      split; [|split].
      + by rewrite (observesContent_static x).
      + by rewrite Ho.
      + by rewrite Hr.
    - intros _ x (Hx1 & Hx2 & Hx3).
      destruct (disable_frame x) as (Hch & Hr & _ & Ho).
      split; [|split].
      + rewrite (observesContent_static x); [done| |done].
        apply disable_configuration.
      + by rewrite (detach_keeps_length x).
      + congruence.
    - intros x (Hx1 & Hx2 & Hx3).
      destruct (ngOnDestroy_frame x) as (Hch & Hr & _ & Ho).
      split; [|split].
      + rewrite (observesContent_static x); [done| |done].
        apply ngOnDestroy_configuration.
      + by rewrite (detach_keeps_length x).
      + congruence.
    - intros now x (Hx1 & Hx2 & Hx3).
      destruct (update_frame now x) as (Hch & [= Ho Hr] & _).
      split; [|split].
      + rewrite (observesContent_static x); [done| |done].
        apply update_configuration.
      + by rewrite Ho.
      + by rewrite Hr.
    - intros _ sw sh cw ch x (Hx1 & Hx2 & Hx3).
      destruct (onLayout_observesContent sw sh cw ch x) as [Hoc' [= Ho Hr]].
      split; [congruence|]. split; [by rewrite Ho | by rewrite Hr]. }
  destruct H as (_ & Hl & Ho). split; [done|]. split; [done|].
  intros Hnil. rewrite Hnil in Hl. by apply length_zero_iff_nil.
Qed.

Lemma run_not_observing_witness :
  observers
    (run [(4, EvEnable)]
       (with_inputs false true hover false None (mounted fitting))) = [].
Proof.
  apply (run_not_observing [(4, EvEnable)]
           (with_inputs false true hover false None (mounted fitting))).
  - reflexivity.
  - reflexivity.
Defined.
